(** * Building Automation System controller (BAS_Controller.py)

    A shallow embedding of the class [BuildingAutomationSystem]: its Tk
    variables become the fields of one record, every handler and every
    monitor-loop body becomes a function from the record to the record, and
    whatever the handlers obtain from outside (wall clock, the two serial
    ports, the textual form of a float) is read from an explicit environment.
    The log widget and the message boxes are kept as lists in the record.

    Numbers.  The Python floats of the controller are modelled by exact
    rationals [Q]; decimal literals are written as in the source
    ([18.0], [0.2], ...).  Comparisons, additions and the decimal [round]
    are therefore the exact ones.  The two temperature entry fields are taken
    to hold numerals.  The controller itself computes with binary doubles:
    a value that lies within rounding distance of a tie of [round] may be
    rounded the other way there, and a stored decimal is the nearest double.
    The time validation is modelled for strings of ASCII characters.

    Atomicity.  Handlers and loop bodies are taken as atomic steps; one
    environment (one clock reading) serves a whole step.  The [except]
    branches of the four loops only log and lengthen the pause; no call made
    inside a loop body of this model raises, so they are not represented. *)

From Stdlib Require Import QArith Qround ZArith String Ascii List Bool Lia.
From Stdlib Require Import Lqa.
Import ListNotations.
Open Scope Q_scope.
Open Scope string_scope.

(** ** Outside world *)

(** What [ser.readline().decode().strip()] yields after a frame was written:
    a reply line, or an exception with its [str(e)] text. *)
Inductive reply : Type :=
| Line (text : string)
| ReadError (msg : string).

(** One serial device as seen through [serial.Serial(port, baud, timeout=1)].
    [open_error = Some m] : the constructor raises with text [m];
    [write_error frame = Some m] : [ser.write(frame)] raises;
    [readline frame] : the answer read after [frame] was written. *)
Record Serial : Type := mkSerial {
  open_error : option string;
  write_error : string -> option string;
  readline : string -> reply
}.

(** The environment of one handler invocation or one loop iteration. *)
Record Env : Type := mkEnv {
  time_time : Q;                       (* time.time() *)
  timestamp : string;                  (* now().strftime("%Y-%m-%d %H:%M:%S") *)
  clock_hm : string;                   (* now().strftime("%H:%M") *)
  controller_serial_port : Serial;
  door_switch_serial_port : Serial;
  str_float : Q -> string              (* how an f-string prints a float *)
}.

(** Calls of [messagebox.showinfo] / [messagebox.showerror]. *)
Inductive dialog : Type :=
| showinfo (title message : string)
| showerror (title message : string).

(** ** The controller object *)

Record BuildingAutomationSystem : Type := mkBAS {
  lights_state : string;               (* "On" / "Off" *)
  door_relay_state : string;           (* "On" / "Off" *)
  current_temp : Q;
  temp_min : Q;
  temp_max : Q;
  current_humidity : Q;
  door_open_time : Q;
  lights_on_time : string;
  lights_off_time : string;
  auto_mode : bool;
  scheduled_mode : bool;
  energy_usage : Q;
  last_energy_update : Q;
  current_mode : string;
  is_connected : bool;
  log_text : list string;              (* the entries inserted at END *)
  messagebox : list dialog             (* dialogs shown so far *)
}.

Definition set_lights_state (v : string) (s : BuildingAutomationSystem)
  : BuildingAutomationSystem :=
  mkBAS v (door_relay_state s) (current_temp s) (temp_min s) (temp_max s)
    (current_humidity s) (door_open_time s) (lights_on_time s)
    (lights_off_time s) (auto_mode s) (scheduled_mode s) (energy_usage s)
    (last_energy_update s) (current_mode s) (is_connected s) (log_text s)
    (messagebox s).

Definition set_door_relay_state (v : string) (s : BuildingAutomationSystem)
  : BuildingAutomationSystem :=
  mkBAS (lights_state s) v (current_temp s) (temp_min s) (temp_max s)
    (current_humidity s) (door_open_time s) (lights_on_time s)
    (lights_off_time s) (auto_mode s) (scheduled_mode s) (energy_usage s)
    (last_energy_update s) (current_mode s) (is_connected s) (log_text s)
    (messagebox s).

Definition set_current_temp (v : Q) (s : BuildingAutomationSystem)
  : BuildingAutomationSystem :=
  mkBAS (lights_state s) (door_relay_state s) v (temp_min s) (temp_max s)
    (current_humidity s) (door_open_time s) (lights_on_time s)
    (lights_off_time s) (auto_mode s) (scheduled_mode s) (energy_usage s)
    (last_energy_update s) (current_mode s) (is_connected s) (log_text s)
    (messagebox s).

Definition set_temp_min (v : Q) (s : BuildingAutomationSystem)
  : BuildingAutomationSystem :=
  mkBAS (lights_state s) (door_relay_state s) (current_temp s) v (temp_max s)
    (current_humidity s) (door_open_time s) (lights_on_time s)
    (lights_off_time s) (auto_mode s) (scheduled_mode s) (energy_usage s)
    (last_energy_update s) (current_mode s) (is_connected s) (log_text s)
    (messagebox s).

Definition set_temp_max (v : Q) (s : BuildingAutomationSystem)
  : BuildingAutomationSystem :=
  mkBAS (lights_state s) (door_relay_state s) (current_temp s) (temp_min s) v
    (current_humidity s) (door_open_time s) (lights_on_time s)
    (lights_off_time s) (auto_mode s) (scheduled_mode s) (energy_usage s)
    (last_energy_update s) (current_mode s) (is_connected s) (log_text s)
    (messagebox s).

Definition set_current_humidity (v : Q) (s : BuildingAutomationSystem)
  : BuildingAutomationSystem :=
  mkBAS (lights_state s) (door_relay_state s) (current_temp s) (temp_min s)
    (temp_max s) v (door_open_time s) (lights_on_time s) (lights_off_time s)
    (auto_mode s) (scheduled_mode s) (energy_usage s) (last_energy_update s)
    (current_mode s) (is_connected s) (log_text s) (messagebox s).

Definition set_door_open_time (v : Q) (s : BuildingAutomationSystem)
  : BuildingAutomationSystem :=
  mkBAS (lights_state s) (door_relay_state s) (current_temp s) (temp_min s)
    (temp_max s) (current_humidity s) v (lights_on_time s) (lights_off_time s)
    (auto_mode s) (scheduled_mode s) (energy_usage s) (last_energy_update s)
    (current_mode s) (is_connected s) (log_text s) (messagebox s).

Definition set_lights_on_time (v : string) (s : BuildingAutomationSystem)
  : BuildingAutomationSystem :=
  mkBAS (lights_state s) (door_relay_state s) (current_temp s) (temp_min s)
    (temp_max s) (current_humidity s) (door_open_time s) v (lights_off_time s)
    (auto_mode s) (scheduled_mode s) (energy_usage s) (last_energy_update s)
    (current_mode s) (is_connected s) (log_text s) (messagebox s).

Definition set_lights_off_time (v : string) (s : BuildingAutomationSystem)
  : BuildingAutomationSystem :=
  mkBAS (lights_state s) (door_relay_state s) (current_temp s) (temp_min s)
    (temp_max s) (current_humidity s) (door_open_time s) (lights_on_time s) v
    (auto_mode s) (scheduled_mode s) (energy_usage s) (last_energy_update s)
    (current_mode s) (is_connected s) (log_text s) (messagebox s).

Definition set_auto_mode (v : bool) (s : BuildingAutomationSystem)
  : BuildingAutomationSystem :=
  mkBAS (lights_state s) (door_relay_state s) (current_temp s) (temp_min s)
    (temp_max s) (current_humidity s) (door_open_time s) (lights_on_time s)
    (lights_off_time s) v (scheduled_mode s) (energy_usage s)
    (last_energy_update s) (current_mode s) (is_connected s) (log_text s)
    (messagebox s).

Definition set_scheduled_mode (v : bool) (s : BuildingAutomationSystem)
  : BuildingAutomationSystem :=
  mkBAS (lights_state s) (door_relay_state s) (current_temp s) (temp_min s)
    (temp_max s) (current_humidity s) (door_open_time s) (lights_on_time s)
    (lights_off_time s) (auto_mode s) v (energy_usage s)
    (last_energy_update s) (current_mode s) (is_connected s) (log_text s)
    (messagebox s).

Definition set_energy_usage (v : Q) (s : BuildingAutomationSystem)
  : BuildingAutomationSystem :=
  mkBAS (lights_state s) (door_relay_state s) (current_temp s) (temp_min s)
    (temp_max s) (current_humidity s) (door_open_time s) (lights_on_time s)
    (lights_off_time s) (auto_mode s) (scheduled_mode s) v
    (last_energy_update s) (current_mode s) (is_connected s) (log_text s)
    (messagebox s).

Definition set_last_energy_update (v : Q) (s : BuildingAutomationSystem)
  : BuildingAutomationSystem :=
  mkBAS (lights_state s) (door_relay_state s) (current_temp s) (temp_min s)
    (temp_max s) (current_humidity s) (door_open_time s) (lights_on_time s)
    (lights_off_time s) (auto_mode s) (scheduled_mode s) (energy_usage s) v
    (current_mode s) (is_connected s) (log_text s) (messagebox s).

Definition set_current_mode (v : string) (s : BuildingAutomationSystem)
  : BuildingAutomationSystem :=
  mkBAS (lights_state s) (door_relay_state s) (current_temp s) (temp_min s)
    (temp_max s) (current_humidity s) (door_open_time s) (lights_on_time s)
    (lights_off_time s) (auto_mode s) (scheduled_mode s) (energy_usage s)
    (last_energy_update s) v (is_connected s) (log_text s) (messagebox s).

Definition set_is_connected (v : bool) (s : BuildingAutomationSystem)
  : BuildingAutomationSystem :=
  mkBAS (lights_state s) (door_relay_state s) (current_temp s) (temp_min s)
    (temp_max s) (current_humidity s) (door_open_time s) (lights_on_time s)
    (lights_off_time s) (auto_mode s) (scheduled_mode s) (energy_usage s)
    (last_energy_update s) (current_mode s) v (log_text s) (messagebox s).

Definition set_log_text (v : list string) (s : BuildingAutomationSystem)
  : BuildingAutomationSystem :=
  mkBAS (lights_state s) (door_relay_state s) (current_temp s) (temp_min s)
    (temp_max s) (current_humidity s) (door_open_time s) (lights_on_time s)
    (lights_off_time s) (auto_mode s) (scheduled_mode s) (energy_usage s)
    (last_energy_update s) (current_mode s) (is_connected s) v (messagebox s).

Definition set_messagebox (v : list dialog) (s : BuildingAutomationSystem)
  : BuildingAutomationSystem :=
  mkBAS (lights_state s) (door_relay_state s) (current_temp s) (temp_min s)
    (temp_max s) (current_humidity s) (door_open_time s) (lights_on_time s)
    (lights_off_time s) (auto_mode s) (scheduled_mode s) (energy_usage s)
    (last_energy_update s) (current_mode s) (is_connected s) (log_text s) v.

(** ** Small Python helpers *)

Definition Qlt_bool (x y : Q) : bool := negb (Qle_bool y x).

(** Python's [min(a, b)] and [max(a, b)]: the first argument wins ties. *)
Definition py_min (a b : Q) : Q := if Qlt_bool b a then b else a.
Definition py_max (a b : Q) : Q := if Qlt_bool a b then b else a.

(** Nearest integer, ties to even. *)
Definition round_half_even (x : Q) : Z :=
  let f := Qfloor x in
  match Qcompare (x - inject_Z f) (1 # 2) with
  | Lt => f
  | Gt => (f + 1)%Z
  | Eq => if Z.even f then f else (f + 1)%Z
  end.

(** Python's [round(x, ndigits)] on an exact value. *)
Definition py_round (x : Q) (ndigits : nat) : Q :=
  let scale := Pos.pow 10 (Pos.of_nat ndigits) in
  match ndigits with
  | O => inject_Z (round_half_even x)
  | _ => Qmake (round_half_even (x * inject_Z (Zpos scale))) scale
  end.

Definition CRLF : string := String "013"%char (String "010"%char EmptyString).

(** ** Event log *)

(** [log_event]: one entry ["[timestamp] message\n"] appended at the end. *)
Definition log_entry (w : Env) (message : string) : string :=
  "[" ++ timestamp w ++ "] " ++ message ++ String "010"%char EmptyString.

Definition log_event (w : Env) (message : string)
  (s : BuildingAutomationSystem) : BuildingAutomationSystem :=
  set_log_text (log_text s ++ [log_entry w message])%list s.

Definition show (d : dialog) (s : BuildingAutomationSystem)
  : BuildingAutomationSystem :=
  set_messagebox (messagebox s ++ [d])%list s.

(** ** Actuation *)

(** How the body of a [try] block ends. *)
Inductive completion : Type :=
| Normal
| Raised (msg : string).

Definition commands_to_turn_on_lights : list string :=
  [ "SDL,4,100" ++ CRLF; "SDL,2,100" ++ CRLF;
    "SDL,3,100" ++ CRLF; "SDL,6,100" ++ CRLF ].

Definition commands_to_turn_off_lights : list string :=
  [ "SDL,4,0" ++ CRLF; "SDL,2,0" ++ CRLF;
    "SDL,3,0" ++ CRLF; "SDL,6,0" ++ CRLF ].

(** The [for command in ...] loop inside [with serial.Serial(...) as ser]. *)
Fixpoint send_light_commands (w : Env) (ser : Serial) (commands : list string)
  (s : BuildingAutomationSystem) : BuildingAutomationSystem * completion :=
  match commands with
  | [] => (s, Normal)
  | command :: rest =>
    match write_error ser command with
    | Some e => (s, Raised e)
    | None =>
      match readline ser command with
      | ReadError e => (s, Raised e)
      | Line response =>
        send_light_commands w ser rest
          (log_event w ("Light command response: " ++ response) s)
      end
    end
  end.

(** Body of the [try] in [turn_on_lights] / [turn_off_lights]. *)
Definition lights_try (w : Env) (not_connected_msg : string)
  (commands : list string) (state done_msg : string)
  (s : BuildingAutomationSystem) : BuildingAutomationSystem * completion :=
  if negb (is_connected s) then (log_event w not_connected_msg s, Normal)
  else
    match open_error (controller_serial_port w) with
    | Some e => (s, Raised e)
    | None =>
      match send_light_commands w (controller_serial_port w) commands s with
      | (s1, Raised e) => (s1, Raised e)
      | (s1, Normal) =>
        (log_event w done_msg (set_lights_state state s1), Normal)
      end
    end.

Definition turn_on_lights_try (w : Env) :=
  lights_try w "System not connected. Unable to turn on lights."
    commands_to_turn_on_lights "On" "Lights turned ON".

Definition turn_on_lights (w : Env) (s : BuildingAutomationSystem)
  : BuildingAutomationSystem :=
  match turn_on_lights_try w s with
  | (s1, Normal) => s1
  | (s1, Raised e) =>
    set_lights_state "On" (log_event w ("Error turning on lights: " ++ e) s1)
  end.

Definition turn_off_lights_try (w : Env) :=
  lights_try w "System not connected. Unable to turn off lights."
    commands_to_turn_off_lights "Off" "Lights turned OFF".

Definition turn_off_lights (w : Env) (s : BuildingAutomationSystem)
  : BuildingAutomationSystem :=
  match turn_off_lights_try w s with
  | (s1, Normal) => s1
  | (s1, Raised e) =>
    set_lights_state "Off" (log_event w ("Error turning off lights: " ++ e) s1)
  end.

Definition door_open_frame : string :=
  String "254"%char (String "008"%char EmptyString).
Definition door_close_frame : string :=
  String "254"%char (String "000"%char EmptyString).

(** [ser2.write(frame); time.sleep(0.25); ser2.readline(); log_event(...)]. *)
Definition door_exchange (w : Env) (frame : string)
  (s : BuildingAutomationSystem) : BuildingAutomationSystem * completion :=
  match open_error (door_switch_serial_port w) with
  | Some e => (s, Raised e)
  | None =>
    match write_error (door_switch_serial_port w) frame with
    | Some e => (s, Raised e)
    | None =>
      match readline (door_switch_serial_port w) frame with
      | ReadError e => (s, Raised e)
      | Line _ => (log_event w "Door relay command sent" s, Normal)
      end
    end
  end.

Definition turn_on_door_relay_try (w : Env) (s : BuildingAutomationSystem)
  : BuildingAutomationSystem * completion :=
  if negb (is_connected s) then
    (log_event w "System not connected. Unable to open door." s, Normal)
  else
    match door_exchange w door_open_frame s with
    | (s1, Raised e) => (s1, Raised e)
    | (s1, Normal) =>
      (log_event w "Door opened"
         (set_door_open_time (time_time w) (set_door_relay_state "On" s1)),
       Normal)
    end.

Definition turn_on_door_relay (w : Env) (s : BuildingAutomationSystem)
  : BuildingAutomationSystem :=
  match turn_on_door_relay_try w s with
  | (s1, Normal) => s1
  | (s1, Raised e) =>
    set_door_relay_state "On" (log_event w ("Error opening door: " ++ e) s1)
  end.

Definition turn_off_door_relay_try (w : Env) (s : BuildingAutomationSystem)
  : BuildingAutomationSystem * completion :=
  if negb (is_connected s) then
    (log_event w "System not connected. Unable to close door." s, Normal)
  else
    match door_exchange w door_close_frame s with
    | (s1, Raised e) => (s1, Raised e)
    | (s1, Normal) =>
      (log_event w "Door closed" (set_door_relay_state "Off" s1), Normal)
    end.

Definition turn_off_door_relay (w : Env) (s : BuildingAutomationSystem)
  : BuildingAutomationSystem :=
  match turn_off_door_relay_try w s with
  | (s1, Normal) => s1
  | (s1, Raised e) =>
    set_door_relay_state "Off" (log_event w ("Error closing door: " ++ e) s1)
  end.

Definition all_systems_on (w : Env) (s : BuildingAutomationSystem)
  : BuildingAutomationSystem :=
  show (showinfo "Success" "All systems activated")
    (turn_on_door_relay w
       (turn_on_lights w (log_event w "Activating all systems..." s))).

Definition all_systems_off (w : Env) (s : BuildingAutomationSystem)
  : BuildingAutomationSystem :=
  show (showinfo "Success" "All systems deactivated")
    (turn_off_door_relay w
       (turn_off_lights w (log_event w "Deactivating all systems..." s))).

(** ** Mode changes and macros *)

Definition available_modes : list string :=
  ["Manual"; "Auto"; "Schedule"; "Energy Saving"].

Definition change_mode (w : Env) (mode : string)
  (s : BuildingAutomationSystem) : BuildingAutomationSystem :=
  let s0 := set_current_mode mode s in
  let s1 :=
    if mode =? "Auto" then
      set_scheduled_mode false (set_auto_mode true s0)
    else if mode =? "Schedule" then
      set_scheduled_mode true (set_auto_mode false s0)
    else if mode =? "Energy Saving" then
      turn_off_lights w
        (set_temp_max 23.0
           (set_temp_min 18.0
              (set_scheduled_mode true (set_auto_mode true s0))))
    else
      set_scheduled_mode false (set_auto_mode false s0) in
  log_event w ("Mode changed to " ++ mode) s1.

Record macro : Type := mkMacro {
  lights : string;
  temperature : Q;
  door : string
}.

Definition macros : list (string * macro) :=
  [ ("Morning", mkMacro "On" 22.0 "Off");
    ("Day", mkMacro "On" 23.0 "Off");
    ("Evening", mkMacro "On" 21.0 "Off");
    ("Night", mkMacro "Off" 19.0 "Off");
    ("Away", mkMacro "Off" 18.0 "Off") ].

Fixpoint lookup (name : string) (d : list (string * macro)) : option macro :=
  match d with
  | [] => None
  | (k, v) :: rest => if k =? name then Some v else lookup name rest
  end.

Definition apply_macro (w : Env) (macro_name : string)
  (s : BuildingAutomationSystem) : BuildingAutomationSystem :=
  match lookup macro_name macros with
  | Some m =>
    let s1 := if lights m =? "On" then turn_on_lights w s
              else turn_off_lights w s in
    let s2 := set_current_temp (temperature m) s1 in
    let s3 := if door m =? "On" then turn_on_door_relay w s2
              else turn_off_door_relay w s2 in
    show (showinfo "Macro Applied"
            ("The " ++ macro_name ++ " macro has been applied."))
      (log_event w ("Applied macro: " ++ macro_name) s3)
  | None =>
    show (showerror "Error" ("Macro '" ++ macro_name ++ "' not found.")) s
  end.

(** ** Schedule and temperature-range handlers *)

Definition is_digit (c : ascii) : bool :=
  (48 <=? nat_of_ascii c)%nat && (nat_of_ascii c <=? 57)%nat.

Definition digit_le (hi : nat) (c : ascii) : bool :=
  (48 <=? nat_of_ascii c)%nat && (nat_of_ascii c <=? 48 + hi)%nat.

(** The strings [%H] accepts: [2[0-3]], [[0-1]\d] or one digit. *)
Definition hour_field (h : string) : bool :=
  match h with
  | String a EmptyString => is_digit a
  | String a (String b EmptyString) =>
    ((a =? "2")%char && digit_le 3 b) || (digit_le 1 a && is_digit b)
  | _ => false
  end.

(** The strings [%M] accepts: [[0-5]\d] or one digit. *)
Definition minute_field (m : string) : bool :=
  match m with
  | String a EmptyString => is_digit a
  | String a (String b EmptyString) => digit_le 5 a && is_digit b
  | _ => false
  end.

Fixpoint split_colon (t : string) : option (string * string) :=
  match t with
  | EmptyString => None
  | String c rest =>
    if (c =? ":")%char then Some (EmptyString, rest)
    else match split_colon rest with
         | Some (h, m) => Some (String c h, m)
         | None => None
         end
  end.

(** [datetime.datetime.strptime(t, "%H:%M")] does not raise [ValueError]. *)
Definition strptime_HM (t : string) : bool :=
  match split_colon t with
  | Some (h, m) => hour_field h && minute_field m
  | None => false
  end.

Definition update_schedule (w : Env) (s : BuildingAutomationSystem)
  : BuildingAutomationSystem :=
  let on_time := lights_on_time s in
  let off_time := lights_off_time s in
  if strptime_HM on_time && strptime_HM off_time then
    let text := "Schedule updated: Lights ON at " ++ on_time
                ++ ", OFF at " ++ off_time in
    show (showinfo "Success" text) (log_event w text s)
  else
    show (showerror "Error"
            "Invalid time format. Use HH:MM (24-hour format).") s.

Definition toggle_scheduled_mode (w : Env) (s : BuildingAutomationSystem)
  : BuildingAutomationSystem :=
  if scheduled_mode s then
    log_event w "Scheduled mode enabled" (set_current_mode "Schedule" s)
  else
    log_event w "Scheduled mode disabled" (set_current_mode "Manual" s).

(** The handler of the "Set" button.  It takes no argument: the two bounds
    are read from [temp_min] and [temp_max], the variables the two entry
    fields are bound to. *)
Definition set_temperature_range (w : Env) (s : BuildingAutomationSystem)
  : BuildingAutomationSystem :=
  let min_temp := temp_min s in
  let max_temp := temp_max s in
  if Qle_bool max_temp min_temp then
    show (showerror "Error"
            "Minimum temperature must be less than maximum temperature.") s
  else
    let text := "Temperature range set: " ++ str_float w min_temp
                ++ "°C to " ++ str_float w max_temp ++ "°C" in
    show (showinfo "Success" text) (log_event w text s).

(** ** Monitor loops: one iteration of each [while True] body *)

Definition monitor_temperature_tick (w : Env)
  (fluctuation humidity_change : Q) (s : BuildingAutomationSystem)
  : BuildingAutomationSystem :=
  let current := current_temp s in
  let new_temp := current + fluctuation in
  let s1 := set_current_temp (py_round new_temp 1) s in
  let new_humidity := current_humidity s1 + humidity_change in
  let s2 :=
    set_current_humidity (py_round (py_max 30 (py_min 70 new_humidity)) 1) s1 in
  if Qlt_bool new_temp (temp_min s2) && auto_mode s2 then
    turn_on_lights w
      (log_event w ("Temperature below minimum (" ++ str_float w new_temp
                    ++ "°C). Activating heating.") s2)
  else if Qlt_bool (temp_max s2) new_temp && auto_mode s2 then
    turn_off_lights w
      (log_event w ("Temperature above maximum (" ++ str_float w new_temp
                    ++ "°C). Deactivating heating.") s2)
  else s2.

Definition monitor_schedule_tick (w : Env) (s : BuildingAutomationSystem)
  : BuildingAutomationSystem :=
  if scheduled_mode s then
    let current_time := clock_hm w in
    let s1 :=
      if current_time =? lights_on_time s then
        log_event w "Scheduled light activation" (turn_on_lights w s)
      else s in
    if current_time =? lights_off_time s1 then
      log_event w "Scheduled light deactivation" (turn_off_lights w s1)
    else s1
  else s.

Definition auto_mode_monitor_tick (w : Env) (s : BuildingAutomationSystem)
  : BuildingAutomationSystem :=
  if auto_mode s then
    let current := current_temp s in
    let s1 :=
      if Qlt_bool current (temp_min s) then
        if lights_state s =? "Off" then turn_on_lights w s else s
      else if Qlt_bool (temp_max s) current then
        if lights_state s =? "On" then turn_off_lights w s else s
      else s in
    if door_relay_state s1 =? "On" then
      if Qlt_bool 10 (time_time w - door_open_time s1) then
        log_event w "Auto-closed door after timeout"
          (turn_off_door_relay w s1)
      else s1
    else s1
  else s.

(** The simulated kWh added by one iteration, before rounding. *)
Definition energy_increment (w : Env) (s : BuildingAutomationSystem) : Q :=
  let lights_factor := if lights_state s =? "On" then 1.0 else 0.2 in
  let door_factor := if door_relay_state s =? "On" then 0.5 else 0.0 in
  let time_diff := (time_time w - last_energy_update s) / 3600 in
  (lights_factor + door_factor) * time_diff * 0.1.

Definition monitor_energy_usage_tick (w : Env) (s : BuildingAutomationSystem)
  : BuildingAutomationSystem :=
  let current_usage := energy_usage s in
  set_last_energy_update (time_time w)
    (set_energy_usage (py_round (current_usage + energy_increment w s) 2) s).

(** ** Start-up *)

(** The field values assigned in [__init__]. *)
Definition init (w : Env) : BuildingAutomationSystem :=
  {| lights_state := "Off";
     door_relay_state := "Off";
     current_temp := 22.0;
     temp_min := 20.0;
     temp_max := 25.0;
     current_humidity := 45.0;
     door_open_time := 0;
     lights_on_time := "07:00";
     lights_off_time := "19:00";
     auto_mode := false;
     scheduled_mode := false;
     energy_usage := 0.0;
     last_energy_update := time_time w;
     current_mode := "Manual";
     is_connected := false;
     log_text := [];
     messagebox := [] |}.

(** The state-relevant part of [setup_gui]: its initial log entry. *)
Definition setup_gui (w : Env) (s : BuildingAutomationSystem)
  : BuildingAutomationSystem :=
  log_event w "System initialized" s.

(** The background loops. *)
Inductive thread : Type :=
| Thread_monitor_temperature
| Thread_monitor_schedule
| Thread_auto_mode_monitor
| Thread_monitor_energy_usage.

(** [start_all_monitoring]: the threads started, and the state afterwards. *)
Definition start_all_monitoring (w : Env) (s : BuildingAutomationSystem)
  : list thread * BuildingAutomationSystem :=
  ( ([Thread_monitor_temperature; Thread_monitor_schedule]
     ++ (if auto_mode s then [Thread_auto_mode_monitor] else [])
     ++ [Thread_monitor_energy_usage])%list,
    log_event w "All monitoring systems started" s ).

Definition PING : string := "PING" ++ CRLF.

(** The [try] body of [try_connect_devices] runs to its end. *)
Definition probe_succeeds (w : Env) : bool :=
  match open_error (controller_serial_port w),
        write_error (controller_serial_port w) PING,
        open_error (door_switch_serial_port w),
        write_error (door_switch_serial_port w) door_close_frame with
  | None, None, None, None => true
  | _, _, _, _ => false
  end.

(** Both branches show "Connected" in the header; only the flag differs. *)
Definition try_connect_devices (w : Env) (s : BuildingAutomationSystem)
  : BuildingAutomationSystem :=
  set_is_connected (probe_succeeds w) s.

(** ** Runs of the controller *)

(** One iteration of a background loop, with the random draws it makes. *)
Inductive tick : Type :=
| TemperatureTick (fluctuation humidity_change : Q)
| ScheduleTick
| AutoModeTick
| EnergyTick.

(** What the operator can do in the window. *)
Inductive command : Type :=
| ClickMode (mode : string)
| ClickMacro (macro_name : string)
| TypeSchedule (on_time off_time : string)
| ClickSetSchedule
| ClickEnableSchedule
| TypeTemperatureRange (min_temp max_temp : Q)
| ClickSetTemperatureRange
| ClickLightsOn
| ClickLightsOff
| ClickDoorOpen
| ClickDoorClose
| ClickAllOn
| ClickAllOff.

Inductive event : Type :=
| Tick (t : tick)
| Command (c : command).

Definition do_tick (w : Env) (t : tick) (s : BuildingAutomationSystem)
  : BuildingAutomationSystem :=
  match t with
  | TemperatureTick fluctuation humidity_change =>
    monitor_temperature_tick w fluctuation humidity_change s
  | ScheduleTick => monitor_schedule_tick w s
  | AutoModeTick => auto_mode_monitor_tick w s
  | EnergyTick => monitor_energy_usage_tick w s
  end.

(** Entry fields and the check box write straight into the variable they are
    bound to ([textvariable=], [variable=]); buttons call their handler. *)
Definition do_command (w : Env) (c : command) (s : BuildingAutomationSystem)
  : BuildingAutomationSystem :=
  match c with
  | ClickMode mode => change_mode w mode s
  | ClickMacro macro_name => apply_macro w macro_name s
  | TypeSchedule on_time off_time =>
    set_lights_off_time off_time (set_lights_on_time on_time s)
  | ClickSetSchedule => update_schedule w s
  | ClickEnableSchedule =>
    toggle_scheduled_mode w (set_scheduled_mode (negb (scheduled_mode s)) s)
  | TypeTemperatureRange min_temp max_temp =>
    set_temp_max max_temp (set_temp_min min_temp s)
  | ClickSetTemperatureRange => set_temperature_range w s
  | ClickLightsOn => turn_on_lights w s
  | ClickLightsOff => turn_off_lights w s
  | ClickDoorOpen => turn_on_door_relay w s
  | ClickDoorClose => turn_off_door_relay w s
  | ClickAllOn => all_systems_on w s
  | ClickAllOff => all_systems_off w s
  end.

Definition step (s : BuildingAutomationSystem) (we : Env * event)
  : BuildingAutomationSystem :=
  match snd we with
  | Tick t => do_tick (fst we) t s
  | Command c => do_command (fst we) c s
  end.

Definition run (trace : list (Env * event)) (s : BuildingAutomationSystem)
  : BuildingAutomationSystem :=
  fold_left step trace s.

(** [__init__]: the fields, [setup_gui], [start_all_monitoring], and then
    [try_connect_devices].  The loops are already running when the probe is
    made, so some of their iterations ([early]) may come before it. *)
Definition startup (w0 : Env) (early : list (Env * tick)) (w1 : Env)
  : BuildingAutomationSystem :=
  try_connect_devices w1
    (fold_left (fun s wt => do_tick (fst wt) (snd wt) s) early
       (snd (start_all_monitoring w0 (setup_gui w0 (init w0))))).

(** The command "set the temperature range to (min, max)" as the window
    offers it: the two values are typed into the entry fields created with
    [textvariable=self.temp_min] and [textvariable=self.temp_max], then the
    "Set" button calls [set_temperature_range]. *)
Definition setTemperatureRange (w : Env) (min_temp max_temp : Q)
  (s : BuildingAutomationSystem) : BuildingAutomationSystem :=
  do_command w ClickSetTemperatureRange
    (do_command w (TypeTemperatureRange min_temp max_temp) s).

(** ** The four actuation operations, uniformly *)

Inductive actuation : Type :=
| LightsOn
| LightsOff
| DoorOpen
| DoorClose.

Definition actuate (a : actuation) : Env -> BuildingAutomationSystem ->
                                     BuildingAutomationSystem :=
  match a with
  | LightsOn => turn_on_lights
  | LightsOff => turn_off_lights
  | DoorOpen => turn_on_door_relay
  | DoorClose => turn_off_door_relay
  end.

Definition actuate_try (a : actuation)
  : Env -> BuildingAutomationSystem -> BuildingAutomationSystem * completion :=
  match a with
  | LightsOn => turn_on_lights_try
  | LightsOff => turn_off_lights_try
  | DoorOpen => turn_on_door_relay_try
  | DoorClose => turn_off_door_relay_try
  end.

(** The logical flag an operation is about, and the value it aims at. *)
Definition flag (a : actuation) : BuildingAutomationSystem -> string :=
  match a with
  | LightsOn | LightsOff => lights_state
  | DoorOpen | DoorClose => door_relay_state
  end.

Definition intended (a : actuation) : string :=
  match a with
  | LightsOn | DoorOpen => "On"
  | LightsOff | DoorClose => "Off"
  end.

Definition error_prefix (a : actuation) : string :=
  match a with
  | LightsOn => "Error turning on lights: "
  | LightsOff => "Error turning off lights: "
  | DoorOpen => "Error opening door: "
  | DoorClose => "Error closing door: "
  end.

Definition not_connected_message (a : actuation) : string :=
  match a with
  | LightsOn => "System not connected. Unable to turn on lights."
  | LightsOff => "System not connected. Unable to turn off lights."
  | DoorOpen => "System not connected. Unable to open door."
  | DoorClose => "System not connected. Unable to close door."
  end.

(** ** Sample environments *)

Definition responsive : Serial :=
  {| open_error := None;
     write_error := fun _ => None;
     readline := fun _ => Line "OK" |}.

Definition unplugged : Serial :=
  {| open_error := Some "could not open port";
     write_error := fun _ => None;
     readline := fun _ => Line "" |}.

(** Answers the first lighting frame, then times out on channel 2. *)
Definition flaky : Serial :=
  {| open_error := None;
     write_error := fun frame =>
       if frame =? "SDL,2,100" ++ CRLF then Some "Write timeout" else None;
     readline := fun _ => Line "OK" |}.

Definition world (t : Q) (stamp hm : string) (ser ser2 : Serial) : Env :=
  {| time_time := t;
     timestamp := stamp;
     clock_hm := hm;
     controller_serial_port := ser;
     door_switch_serial_port := ser2;
     str_float := fun _ => "<float>" |}.

(** Devices answer; the clock reads [t] seconds. *)
Definition online (t : Q) : Env :=
  world t "2025-03-27 12:00:00" "12:00" responsive responsive.

(** Devices absent; the clock reads [t] seconds. *)
Definition offline (t : Q) : Env :=
  world t "2025-03-27 12:00:00" "12:00" unplugged unplugged.

(** The controller just after a start at time 0 with both devices answering,
    and after a start with no device. *)
Definition started_connected : BuildingAutomationSystem :=
  startup (online 0) [] (online 0).

Definition started_unconnected : BuildingAutomationSystem :=
  startup (online 0) [] (offline 0).

(** ** Vocabulary of the statements *)

(** [s'] is [s] with some entries added at the end of the log. *)
Definition appends (s s' : BuildingAutomationSystem) : Prop :=
  exists entries, s' = set_log_text (log_text s ++ entries)%list s.

(** Every actuation is: some log entries, plus (when connected) the flag. *)
Definition flag_update (a : actuation) (w : Env)
  (s : BuildingAutomationSystem) : BuildingAutomationSystem -> Prop :=
  fun s' =>
    match a with
    | LightsOn | LightsOff => appends (set_lights_state (intended a) s) s'
    | DoorClose => appends (set_door_relay_state "Off" s) s'
    | DoorOpen =>
      appends (set_door_relay_state "On" s) s' \/
      appends (set_door_open_time (time_time w)
                 (set_door_relay_state "On" s)) s'
    end.


(** A step that neither touches [is_connected] nor, while the controller is
    not connected, the two actuation flags. *)
Definition quiet (s s' : BuildingAutomationSystem) : Prop :=
  is_connected s' = is_connected s /\
  (is_connected s = false ->
   lights_state s' = lights_state s /\
   door_relay_state s' = door_relay_state s).

(** A step that leaves the energy counter and its sampling time alone. *)
Definition same_energy (s s' : BuildingAutomationSystem) : Prop :=
  energy_usage s' = energy_usage s /\
  last_energy_update s' = last_energy_update s.

(** Lights and door are off whenever the controller is not connected. *)
Definition off_unless_connected (s : BuildingAutomationSystem) : Prop :=
  is_connected s = false ->
  lights_state s = "Off" /\ door_relay_state s = "Off".

(** What an actuation does to the fields other than the log once the
    connection check is passed; [stamped] tells whether the door-open path
    reached the line recording [door_open_time]. *)
Definition effect (a : actuation) (w : Env) (stamped : bool)
  (s : BuildingAutomationSystem) : BuildingAutomationSystem :=
  match a with
  | LightsOn => set_lights_state "On" s
  | LightsOff => set_lights_state "Off" s
  | DoorClose => set_door_relay_state "Off" s
  | DoorOpen =>
    if stamped then
      set_door_open_time (time_time w) (set_door_relay_state "On" s)
    else set_door_relay_state "On" s
  end.

(** A state some run of the controller ends in. *)
Definition reached (w0 : Env) (early : list (Env * tick)) (w1 : Env)
  (trace : list (Env * event)) : BuildingAutomationSystem :=
  run trace (startup w0 early w1).

(** After a step made with clock reading [time_time w], the door time stamp
    is the old one or that reading. *)
Definition stamp_kept_or_now (w : Env) (s s' : BuildingAutomationSystem)
  : Prop :=
  door_open_time s' = door_open_time s \/ door_open_time s' = time_time w.

(** The flags [change_mode] gives to a mode name. *)
Definition mode_auto (mode : string) : bool :=
  (mode =? "Auto") || (mode =? "Energy Saving").

Definition mode_scheduled (mode : string) : bool :=
  (mode =? "Schedule") || (mode =? "Energy Saving").

(** [s] still carries everything [change_mode mode] establishes. *)
Definition settled (mode : string) (s : BuildingAutomationSystem) : Prop :=
  current_mode s = mode /\
  auto_mode s = mode_auto mode /\
  scheduled_mode s = mode_scheduled mode /\
  if mode =? "Energy Saving" then
    temp_min s = 18.0 /\ temp_max s = 23.0 /\
    (lights_state s = "Off" \/ is_connected s = false)
  else True.

Definition range_error : dialog :=
  showerror "Error"
    "Minimum temperature must be less than maximum temperature.".

(** The readings after the simulated sensor step of [monitor_temperature]:
    both values rounded to one decimal, the humidity clamped to 30..70. *)
Definition perturbed (fluctuation humidity_change : Q)
  (s : BuildingAutomationSystem) : BuildingAutomationSystem :=
  set_current_humidity
    (py_round (py_max 30 (py_min 70 (current_humidity s + humidity_change))) 1)
    (set_current_temp (py_round (current_temp s + fluctuation) 1) s).

Definition below_minimum (w : Env) (new_temp : Q) : string :=
  "Temperature below minimum (" ++ str_float w new_temp
  ++ "°C). Activating heating.".

Definition above_maximum (w : Env) (new_temp : Q) : string :=
  "Temperature above maximum (" ++ str_float w new_temp
  ++ "°C). Deactivating heating.".

(** The counter is a whole number of hundredths. *)
Definition on_grid (s : BuildingAutomationSystem) : Prop :=
  exists k : Z, energy_usage s == Qmake k 100.

(** No [monitor_energy_usage] iteration of the trace sees the clock before
    the previous sample: every elapsed time is non-negative. *)
Fixpoint clock_ahead (trace : list (Env * event))
  (s : BuildingAutomationSystem) : bool :=
  match trace with
  | [] => true
  | we :: rest =>
    match snd we with
    | Tick EnergyTick => Qle_bool (last_energy_update s) (time_time (fst we))
    | _ => true
    end && clock_ahead rest (step s we)
  end.

(** ** Vocabulary of the further properties *)

(** Log and dialog list of [s'] extend those of [s]. *)
Definition grows (s s' : BuildingAutomationSystem) : Prop :=
  exists entries dialogs,
    log_text s' = (log_text s ++ entries)%list /\
    messagebox s' = (messagebox s ++ dialogs)%list.

(** Mode name and the two mode flags are as before. *)
Definition controls_kept (s s' : BuildingAutomationSystem) : Prop :=
  current_mode s' = current_mode s /\
  auto_mode s' = auto_mode s /\
  scheduled_mode s' = scheduled_mode s.

(** How the flags relate to the mode name in every run: the schedule flag is
    set exactly in "Schedule" and "Energy Saving", and the auto flag is set
    at least in "Auto" and "Energy Saving". *)
Definition mode_consistent (s : BuildingAutomationSystem) : Prop :=
  scheduled_mode s = mode_scheduled (current_mode s) /\
  (mode_auto (current_mode s) = true -> auto_mode s = true).

(** The door flag did not go to "On" and its time stamp did not move. *)
Definition door_not_opened (s s' : BuildingAutomationSystem) : Prop :=
  door_open_time s' = door_open_time s /\
  (door_relay_state s' = door_relay_state s \/ door_relay_state s' = "Off").

(** A number below 100 as two decimal digits, as [strftime] prints the
    fields [%H] and [%M]. *)
Definition two_digits (n : nat) : string :=
  String (ascii_of_nat (48 + n / 10))
    (String (ascii_of_nat (48 + n mod 10)) EmptyString).

(** What [strftime("%H:%M")] returns at hour [h], minute [m]. *)
Definition strftime_HM (h m : nat) : string :=
  two_digits h ++ ":" ++ two_digits m.

(** The same time written without the leading zero of the hour. *)
Definition unpadded_HM (h m : nat) : string :=
  String (ascii_of_nat (48 + h)) EmptyString ++ ":" ++ two_digits m.

(** The humidity reading is within the clamp of [monitor_temperature]. *)
Definition humidity_in_band (s : BuildingAutomationSystem) : Prop :=
  30 <= current_humidity s /\ current_humidity s <= 70.

Definition humidity_kept (s s' : BuildingAutomationSystem) : Prop :=
  current_humidity s' = current_humidity s.

(** Every frame of [commands] is written without error and answered. *)
Definition answered (ser : Serial) (commands : list string) : bool :=
  forallb (fun command =>
             match write_error ser command, readline ser command with
             | None, Line _ => true
             | _, _ => false
             end) commands.

(** The log entry [send_light_commands] writes for an answered frame. *)
Definition response_entry (w : Env) (ser : Serial) (command : string)
  : string :=
  match readline ser command with
  | Line response => log_entry w ("Light command response: " ++ response)
  | ReadError _ => log_entry w "Light command response: "
  end.

Fixpoint contains_colon (t : string) : bool :=
  match t with
  | EmptyString => false
  | String c rest => (c =? ":")%char || contains_colon rest
  end.

Definition schedule_error : dialog :=
  showerror "Error" "Invalid time format. Use HH:MM (24-hour format).".
(** ** Vocabulary of transport failures *)

(** The serial device an operation talks to, and the frames it sends. *)
Definition port (a : actuation) (w : Env) : Serial :=
  match a with
  | LightsOn | LightsOff => controller_serial_port w
  | DoorOpen | DoorClose => door_switch_serial_port w
  end.

Definition frames (a : actuation) : list string :=
  match a with
  | LightsOn => commands_to_turn_on_lights
  | LightsOff => commands_to_turn_off_lights
  | DoorOpen => [door_open_frame]
  | DoorClose => [door_close_frame]
  end.

(** Writing [frame], or reading the answer to it, raises with text [e]. *)
Definition frame_fails (ser : Serial) (frame e : string) : Prop :=
  write_error ser frame = Some e \/
  (write_error ser frame = None /\ readline ser frame = ReadError e).

(** The device fails with text [e] while [sent] is being sent: either it
    cannot be opened, or it opens, answers the frames [done] and fails at the
    next frame of [sent]. *)
Definition port_fails (ser : Serial) (sent done : list string) (e : string)
  : Prop :=
  (open_error ser = Some e /\ done = []) \/
  (open_error ser = None /\
   exists frame rest,
     sent = (done ++ frame :: rest)%list /\
     answered ser done = true /\
     frame_fails ser frame e).

(** Opens and takes every frame, but no answer can be read. *)
Definition mute : Serial :=
  {| open_error := None;
     write_error := fun _ => None;
     readline := fun _ => ReadError "read failed" |}.


(** * Properties *)

(** ** Bookkeeping: what a step leaves alone *)

Lemma appends_refl s : appends s s.
Proof.
  exists []. rewrite app_nil_r. now destruct s.
Qed.

Lemma appends_trans s1 s2 s3 : appends s1 s2 -> appends s2 s3 -> appends s1 s3.
Proof.
  intros [l1 ->] [l2 ->]. exists (l1 ++ l2)%list.
  unfold set_log_text; simpl. now rewrite app_assoc.
Qed.

Lemma appends_log_event w m s : appends s (log_event w m s).
Proof. now exists [log_entry w m]. Qed.

Lemma send_light_commands_appends w ser commands :
  forall s, appends s (fst (send_light_commands w ser commands s)).
Proof.
  induction commands as [|c rest IH]; intros s; simpl.
  - apply appends_refl.
  - destruct (write_error ser c); [apply appends_refl|].
    destruct (readline ser c); [|apply appends_refl].
    eapply appends_trans; [apply appends_log_event | apply IH].
Qed.

Lemma door_exchange_appends w frame s :
  appends s (fst (door_exchange w frame s)).
Proof.
  unfold door_exchange.
  destruct (open_error _); [apply appends_refl|].
  destruct (write_error _ _); [apply appends_refl|].
  destruct (readline _ _); [apply appends_log_event | apply appends_refl].
Qed.

Lemma lights_try_shape w msg commands state done_msg s :
  is_connected s = true ->
  let r := lights_try w msg commands state done_msg s in
  match snd r with
  | Normal => appends (set_lights_state state s) (fst r)
  | Raised _ => appends s (fst r)
  end.
Proof.
  intros Hc; unfold lights_try; rewrite Hc; simpl.
  destruct (open_error _); simpl; [apply appends_refl|].
  pose proof (send_light_commands_appends w (controller_serial_port w)
                commands s) as H.
  destruct (send_light_commands _ _ _ _) as [s1 [|e]]; simpl in *; trivial.
  destruct H as [l ->]. exists (l ++ [log_entry w done_msg])%list.
  unfold log_event, set_log_text, set_lights_state; simpl.
  now rewrite app_assoc.
Qed.

Lemma actuate_connected a w s :
  is_connected s = true -> flag_update a w s (actuate a w s).
Proof.
  intros Hc. destruct a; simpl.
  - unfold turn_on_lights, turn_on_lights_try.
    pose proof (lights_try_shape w
      "System not connected. Unable to turn on lights."
      commands_to_turn_on_lights "On" "Lights turned ON" s Hc) as H.
    simpl in H. destruct (lights_try _ _ _ _ _ _) as [s1 [|e]]; simpl in *;
      trivial.
    destruct H as [l ->].
    exists (l ++ [log_entry w ("Error turning on lights: " ++ e)])%list.
    unfold log_event, set_log_text, set_lights_state; simpl.
    now rewrite app_assoc.
  - unfold turn_off_lights, turn_off_lights_try.
    pose proof (lights_try_shape w
      "System not connected. Unable to turn off lights."
      commands_to_turn_off_lights "Off" "Lights turned OFF" s Hc) as H.
    simpl in H. destruct (lights_try _ _ _ _ _ _) as [s1 [|e]]; simpl in *;
      trivial.
    destruct H as [l ->].
    exists (l ++ [log_entry w ("Error turning off lights: " ++ e)])%list.
    unfold log_event, set_log_text, set_lights_state; simpl.
    now rewrite app_assoc.
  - unfold turn_on_door_relay, turn_on_door_relay_try. rewrite Hc; simpl.
    pose proof (door_exchange_appends w door_open_frame s) as H.
    destruct (door_exchange _ _ _) as [s1 [|e]]; simpl in *;
      destruct H as [l ->]; [right | left].
    + exists (l ++ [log_entry w "Door opened"])%list.
      unfold log_event, set_log_text, set_door_open_time,
        set_door_relay_state; simpl.
      now rewrite app_assoc.
    + exists (l ++ [log_entry w ("Error opening door: " ++ e)])%list.
      unfold log_event, set_log_text, set_door_relay_state; simpl.
      now rewrite app_assoc.
  - unfold turn_off_door_relay, turn_off_door_relay_try. rewrite Hc; simpl.
    pose proof (door_exchange_appends w door_close_frame s) as H.
    destruct (door_exchange _ _ _) as [s1 [|e]]; simpl in *;
      destruct H as [l ->].
    + exists (l ++ [log_entry w "Door closed"])%list.
      unfold log_event, set_log_text, set_door_relay_state; simpl.
      now rewrite app_assoc.
    + exists (l ++ [log_entry w ("Error closing door: " ++ e)])%list.
      unfold log_event, set_log_text, set_door_relay_state; simpl.
      now rewrite app_assoc.
Qed.

Lemma actuate_not_connected a w s :
  is_connected s = false ->
  actuate a w s = log_event w (not_connected_message a) s.
Proof.
  intros Hc. destruct a; simpl;
    unfold turn_on_lights, turn_on_lights_try, turn_off_lights,
      turn_off_lights_try, lights_try, turn_on_door_relay,
      turn_on_door_relay_try, turn_off_door_relay, turn_off_door_relay_try;
    now rewrite Hc.
Qed.

Lemma actuate_try_raised_connected a w s s1 e :
  actuate_try a w s = (s1, Raised e) -> is_connected s = true.
Proof.
  destruct (is_connected s) eqn:Hc; trivial.
  destruct a; simpl;
    unfold turn_on_lights_try, turn_off_lights_try, lights_try,
      turn_on_door_relay_try, turn_off_door_relay_try;
    rewrite Hc; simpl; discriminate.
Qed.

Lemma actuate_try_raised_appends a w s s1 e :
  actuate_try a w s = (s1, Raised e) -> appends s s1.
Proof.
  intros H. pose proof (actuate_try_raised_connected _ _ _ _ _ H) as Hc.
  destruct a; simpl in H.
  - pose proof (lights_try_shape w
      "System not connected. Unable to turn on lights."
      commands_to_turn_on_lights "On" "Lights turned ON" s Hc) as S.
    unfold turn_on_lights_try in H. simpl in S. now rewrite H in S.
  - pose proof (lights_try_shape w
      "System not connected. Unable to turn off lights."
      commands_to_turn_off_lights "Off" "Lights turned OFF" s Hc) as S.
    unfold turn_off_lights_try in H. simpl in S. now rewrite H in S.
  - unfold turn_on_door_relay_try in H. rewrite Hc in H; simpl in H.
    pose proof (door_exchange_appends w door_open_frame s) as S.
    destruct (door_exchange _ _ _) as [s2 [|e2]]; simpl in *;
      [discriminate | now inversion H; subst].
  - unfold turn_off_door_relay_try in H. rewrite Hc in H; simpl in H.
    pose proof (door_exchange_appends w door_close_frame s) as S.
    destruct (door_exchange _ _ _) as [s2 [|e2]]; simpl in *;
      [discriminate | now inversion H; subst].
Qed.

(** ** Actuation under transport errors *)

Lemma send_light_commands_fault w ser done frame rest e :
  forall s,
    answered ser done = true ->
    frame_fails ser frame e ->
    send_light_commands w ser (done ++ frame :: rest) s
    = (set_log_text (log_text s ++ map (response_entry w ser) done)%list s,
       Raised e).
Proof.
  induction done as [|c more IH]; intros s A F; simpl.
  - rewrite app_nil_r.
    destruct F as [F|[F1 F2]]; [rewrite F | rewrite F1, F2]; now destruct s.
  - simpl in A. apply andb_true_iff in A. destruct A as [A1 A2].
    unfold response_entry at 1.
    destruct (write_error ser c); [discriminate|].
    destruct (readline ser c) as [r|e']; [|discriminate].
    rewrite (IH _ A2 F). unfold log_event, set_log_text; simpl.
    now rewrite <- app_assoc.
Qed.

Lemma single_frame_fault ser frame done e :
  port_fails ser [frame] done e ->
  done = [] /\
  (open_error ser = Some e \/
   (open_error ser = None /\ frame_fails ser frame e)).
Proof.
  intros [[O D]|(O & f & rest & E & _ & F)].
  - split; [exact D | now left].
  - destruct done as [|x done']; simpl in E.
    + inversion E; subst. split; [reflexivity | now right].
    + inversion E as [[E1 E2]]. now destruct done'.
Qed.

Lemma door_exchange_fault w frame done e s :
  port_fails (door_switch_serial_port w) [frame] done e ->
  done = [] /\ door_exchange w frame s = (s, Raised e).
Proof.
  intros P. destruct (single_frame_fault _ _ _ _ P) as [D H].
  split; [exact D|]. unfold door_exchange.
  destruct H as [O|[O [F|[F1 F2]]]].
  - now rewrite O.
  - now rewrite O, F.
  - now rewrite O, F1, F2.
Qed.

Lemma lights_try_fault w msg commands state done_msg done e s :
  is_connected s = true ->
  port_fails (controller_serial_port w) commands done e ->
  lights_try w msg commands state done_msg s
  = (set_log_text
       (log_text s ++ map (response_entry w (controller_serial_port w)) done)
       s,
     Raised e).
Proof.
  intros Hc P. unfold lights_try. rewrite Hc; cbn [negb].
  destruct P as [[O D]|(O & f & rest & E & A & F)].
  - rewrite O, D. cbn [map]. rewrite app_nil_r. now destruct s.
  - rewrite O, E. now rewrite (send_light_commands_fault _ _ _ _ _ _ _ A F).
Qed.

(** C2.  Take any of the four actuation operations on a connected
    controller, and let its serial device fail with text [e]: the port
    cannot be opened, or it opens, answers the frames [done] and then a write
    or a read raises.  The operation still sets its logical flag to the
    intended value; the log gains the response entries of the answered
    frames and then, as last entry, the error entry of the operation with
    [e]; no other field changes ([door_open_time] included). *)
Theorem transport_error_still_updates_flag :
  forall (a : actuation) (w : Env) (s : BuildingAutomationSystem)
         (done : list string) (e : string),
    is_connected s = true ->
    port_fails (port a w) (frames a) done e ->
    flag a (actuate a w s) = intended a /\
    log_text (actuate a w s)
    = (log_text s ++ map (response_entry w (port a w)) done
       ++ [log_entry w (error_prefix a ++ e)])%list /\
    actuate a w s
    = set_log_text
        (log_text s ++ map (response_entry w (port a w)) done
         ++ [log_entry w (error_prefix a ++ e)])%list
        (effect a w false s).
Proof.
  intros a w s done e Hc P.
  assert (E : actuate a w s
              = set_log_text
                  (log_text s ++ map (response_entry w (port a w)) done
                   ++ [log_entry w (error_prefix a ++ e)])%list
                  (effect a w false s)).
  { destruct a; cbn [actuate port frames error_prefix effect] in *.
    - unfold turn_on_lights, turn_on_lights_try.
      rewrite (lights_try_fault _ _ _ _ _ _ _ _ Hc P).
      unfold log_event, set_log_text, set_lights_state; cbn.
      now rewrite <- app_assoc.
    - unfold turn_off_lights, turn_off_lights_try.
      rewrite (lights_try_fault _ _ _ _ _ _ _ _ Hc P).
      unfold log_event, set_log_text, set_lights_state; cbn.
      now rewrite <- app_assoc.
    - destruct (door_exchange_fault w door_open_frame done e s P) as [D X].
      unfold turn_on_door_relay, turn_on_door_relay_try.
      rewrite Hc; cbn [negb]. rewrite X, D. reflexivity.
    - destruct (door_exchange_fault w door_close_frame done e s P) as [D X].
      unfold turn_off_door_relay, turn_off_door_relay_try.
      rewrite Hc; cbn [negb]. rewrite X, D. reflexivity. }
  rewrite E. split; [now destruct a|]. split; reflexivity.
Qed.

Lemma transport_error_still_updates_flag_witness :
  (lights_state
     (turn_on_lights (world 5 "T" "12:00" flaky responsive)
        started_connected) = "On" /\
   log_text
     (turn_on_lights (world 5 "T" "12:00" flaky responsive)
        started_connected)
   = (log_text started_connected
      ++ [log_entry (world 5 "T" "12:00" flaky responsive)
            "Light command response: OK";
          log_entry (world 5 "T" "12:00" flaky responsive)
            "Error turning on lights: Write timeout"])%list) /\
  lights_state
    (turn_off_lights (world 5 "T" "12:00" unplugged responsive)
       (turn_on_lights (online 4) started_connected)) = "Off" /\
  door_relay_state
    (turn_on_door_relay (world 5 "T" "12:00" responsive unplugged)
       started_connected) = "On" /\
  door_relay_state
    (turn_off_door_relay (world 5 "T" "12:00" responsive mute)
       (turn_on_door_relay (online 4) started_connected)) = "Off".
Proof.
  split; [|split; [|split]].
  - assert (P : port_fails
                  (port LightsOn (world 5 "T" "12:00" flaky responsive))
                  (frames LightsOn) ["SDL,4,100" ++ CRLF] "Write timeout").
    { right. split; [reflexivity|].
      exists ("SDL,2,100" ++ CRLF), ["SDL,3,100" ++ CRLF; "SDL,6,100" ++ CRLF].
      split; [reflexivity|]. split; [reflexivity|]. left. reflexivity. }
    destruct (transport_error_still_updates_flag LightsOn
                (world 5 "T" "12:00" flaky responsive) started_connected
                ["SDL,4,100" ++ CRLF] "Write timeout" eq_refl P)
      as (F & L & _).
    split; [exact F | exact L].
  - apply (transport_error_still_updates_flag LightsOff
             (world 5 "T" "12:00" unplugged responsive)
             (turn_on_lights (online 4) started_connected)
             [] "could not open port" eq_refl).
    left. split; reflexivity.
  - apply (transport_error_still_updates_flag DoorOpen
             (world 5 "T" "12:00" responsive unplugged) started_connected
             [] "could not open port" eq_refl).
    left. split; reflexivity.
  - apply (transport_error_still_updates_flag DoorClose
             (world 5 "T" "12:00" responsive mute)
             (turn_on_door_relay (online 4) started_connected)
             [] "read failed" eq_refl).
    right. split; [reflexivity|].
    exists door_close_frame, []. split; [reflexivity|].
    split; [reflexivity|]. right. split; reflexivity.
Defined.

(** ** Actuation while not connected *)

(** C10.  With [is_connected] false each of the four actuation operations
    takes the early [return]: its [try] body ends normally, exactly one
    "System not connected" entry is appended to the log, and the state is
    otherwise the one before; in particular [lights_state],
    [door_relay_state] and [door_open_time] keep their values. *)
Theorem not_connected_only_logs :
  forall (a : actuation) (w : Env) (s : BuildingAutomationSystem),
    is_connected s = false ->
    actuate_try a w s = (log_event w (not_connected_message a) s, Normal) /\
    actuate a w s = log_event w (not_connected_message a) s /\
    log_text (actuate a w s)
    = (log_text s ++ [log_entry w (not_connected_message a)])%list /\
    lights_state (actuate a w s) = lights_state s /\
    door_relay_state (actuate a w s) = door_relay_state s /\
    door_open_time (actuate a w s) = door_open_time s.
Proof.
  intros a w s Hc. split.
  - destruct a; simpl;
      unfold turn_on_lights_try, turn_off_lights_try, lights_try,
        turn_on_door_relay_try, turn_off_door_relay_try; now rewrite Hc.
  - rewrite (actuate_not_connected a w s Hc). repeat split.
Qed.

Lemma not_connected_only_logs_witness :
  is_connected started_unconnected = false /\
  door_relay_state (turn_on_door_relay (online 5) started_unconnected)
  = door_relay_state started_unconnected.
Proof.
  split; [reflexivity|].
  apply (not_connected_only_logs DoorOpen (online 5) started_unconnected).
  reflexivity.
Defined.

(** ** Frame lemmas for whole handlers *)

Lemma quiet_refl s : quiet s s.
Proof. now split. Qed.

Lemma quiet_trans s1 s2 s3 : quiet s1 s2 -> quiet s2 s3 -> quiet s1 s3.
Proof.
  intros [C1 F1] [C2 F2]. split; [congruence|].
  intros H. destruct (F1 H) as [L1 D1].
  rewrite C1 in C2. rewrite <- C1 in H. destruct (F2 H) as [L2 D2].
  split; congruence.
Qed.

Lemma same_energy_refl s : same_energy s s.
Proof. now split. Qed.

Lemma same_energy_trans s1 s2 s3 :
  same_energy s1 s2 -> same_energy s2 s3 -> same_energy s1 s3.
Proof. intros [A1 B1] [A2 B2]; split; congruence. Qed.

Lemma appends_quiet s s' : appends s s' -> quiet s s'.
Proof. intros [l ->]. now split. Qed.

Lemma appends_same_energy s s' : appends s s' -> same_energy s s'.
Proof. intros [l ->]. now split. Qed.

Lemma actuate_quiet a w s : quiet s (actuate a w s).
Proof.
  destruct (is_connected s) eqn:Hc.
  - pose proof (actuate_connected a w s Hc) as H.
    split; [|congruence].
    rewrite Hc.
    destruct a; cbn [actuate flag_update intended] in *;
      repeat match goal with
             | H : _ \/ _ |- _ => destruct H
             | H : appends _ _ |- _ => destruct H as [? ->]
             end; exact Hc.
  - rewrite (actuate_not_connected a w s Hc). now split.
Qed.

Lemma actuate_same_energy a w s : same_energy s (actuate a w s).
Proof.
  destruct (is_connected s) eqn:Hc.
  - pose proof (actuate_connected a w s Hc) as H.
    destruct a; cbn [actuate flag_update intended] in *;
      repeat match goal with
             | H : _ \/ _ |- _ => destruct H
             | H : appends _ _ |- _ => destruct H as [? ->]
             end; now split.
  - rewrite (actuate_not_connected a w s Hc). now split.
Qed.

(** Composition rules, one per primitive, in the shape a tactic can chain:
    [R] is any relation between the state a handler starts in and a state
    it passes through. *)
Section Chaining.
Variable R : BuildingAutomationSystem -> BuildingAutomationSystem -> Prop.
Variable w : Env.
Hypothesis R_trans : forall a b c, R a b -> R b c -> R a c.
Hypothesis R_appends : forall a b, appends a b -> R a b.
Hypothesis R_actuate : forall a s, R s (actuate a w s).

Lemma chain_log_event w' m s x : R s x -> R s (log_event w' m x).
Proof.
  intros H; eapply R_trans; [exact H|].
  apply R_appends, appends_log_event.
Qed.

Lemma chain_turn_on_lights s x : R s x -> R s (turn_on_lights w x).
Proof. intros H; eapply R_trans; [exact H | apply (R_actuate LightsOn)]. Qed.

Lemma chain_turn_off_lights s x : R s x -> R s (turn_off_lights w x).
Proof. intros H; eapply R_trans; [exact H | apply (R_actuate LightsOff)]. Qed.

Lemma chain_turn_on_door_relay s x : R s x -> R s (turn_on_door_relay w x).
Proof. intros H; eapply R_trans; [exact H | apply (R_actuate DoorOpen)]. Qed.

Lemma chain_turn_off_door_relay s x :
  R s x -> R s (turn_off_door_relay w x).
Proof. intros H; eapply R_trans; [exact H | apply (R_actuate DoorClose)]. Qed.
End Chaining.

(** [frame_with]: peel a nest of primitives off a goal [R s (f (g (.. s)))];
    [close] finishes [R s (set_.. v x)] from [R s x] for an untouched field. *)
Ltac frame_with R Rrefl Rtrans Rapp Ract close :=
  repeat match goal with
         | |- R ?s ?s => apply Rrefl
         | |- R ?s (log_event ?w ?m ?x) =>
           apply (chain_log_event R Rtrans Rapp w m s x)
         | |- R ?s (turn_on_lights ?w ?x) =>
           apply (chain_turn_on_lights R w Rtrans (Ract w) s x)
         | |- R ?s (turn_off_lights ?w ?x) =>
           apply (chain_turn_off_lights R w Rtrans (Ract w) s x)
         | |- R ?s (turn_on_door_relay ?w ?x) =>
           apply (chain_turn_on_door_relay R w Rtrans (Ract w) s x)
         | |- R ?s (turn_off_door_relay ?w ?x) =>
           apply (chain_turn_off_door_relay R w Rtrans (Ract w) s x)
         | |- R ?s (?f ?v ?x) =>
           let H := fresh in
           assert (H : R s x); [| close H]
         end.

Ltac close_conj H := destruct H; split; simpl; assumption.

Ltac frame_tac :=
  match goal with
  | |- quiet _ _ =>
    frame_with quiet quiet_refl quiet_trans appends_quiet
      (fun w a s => actuate_quiet a w s) close_conj
  | |- same_energy _ _ =>
    frame_with same_energy same_energy_refl same_energy_trans
      appends_same_energy (fun w a s => actuate_same_energy a w s)
      close_conj
  end.

Ltac split_ifs :=
  repeat match goal with
         | |- context [if ?c then _ else _] => destruct c
         | |- context [match lookup ?n ?d with _ => _ end] =>
           destruct (lookup n d)
         end.

Lemma do_command_quiet w c s : quiet s (do_command w c s).
Proof.
  destruct c; cbn [do_command];
    unfold change_mode, apply_macro, update_schedule, toggle_scheduled_mode,
      set_temperature_range, all_systems_on, all_systems_off;
    cbv zeta; split_ifs; frame_tac.
Qed.

Lemma do_command_same_energy w c s : same_energy s (do_command w c s).
Proof.
  destruct c; cbn [do_command];
    unfold change_mode, apply_macro, update_schedule, toggle_scheduled_mode,
      set_temperature_range, all_systems_on, all_systems_off;
    cbv zeta; split_ifs; frame_tac.
Qed.

Lemma do_tick_quiet w t s : quiet s (do_tick w t s).
Proof.
  destruct t; cbn [do_tick];
    unfold monitor_temperature_tick, monitor_schedule_tick,
      auto_mode_monitor_tick, monitor_energy_usage_tick;
    cbv zeta; split_ifs; frame_tac.
Qed.

Lemma do_tick_same_energy w t s :
  t <> EnergyTick -> same_energy s (do_tick w t s).
Proof.
  intros Ht. destruct t; try congruence; cbn [do_tick];
    unfold monitor_temperature_tick, monitor_schedule_tick,
      auto_mode_monitor_tick;
    cbv zeta; split_ifs; frame_tac.
Qed.

Lemma step_quiet s we : quiet s (step s we).
Proof.
  destruct we as [w [t|c]]; unfold step; simpl;
    [apply do_tick_quiet | apply do_command_quiet].
Qed.

Lemma quiet_keeps_off s s' :
  quiet s s' -> off_unless_connected s -> off_unless_connected s'.
Proof.
  intros [C F] H Hc. rewrite C in Hc. destruct (F Hc) as [L D].
  destruct (H Hc). split; congruence.
Qed.

Lemma early_ticks_quiet early :
  forall s, quiet s (fold_left (fun s wt => do_tick (fst wt) (snd wt) s)
                       early s).
Proof.
  induction early as [|[w t] rest IH]; intros s; simpl.
  - apply quiet_refl.
  - eapply quiet_trans; [apply do_tick_quiet | apply IH].
Qed.

Lemma startup_off_unless_connected w0 early w1 :
  off_unless_connected (startup w0 early w1).
Proof.
  unfold startup, try_connect_devices. intros _.
  set (base := snd (start_all_monitoring w0 (setup_gui w0 (init w0)))).
  pose proof (early_ticks_quiet early base) as [_ F].
  destruct (F eq_refl) as [L D].
  unfold set_is_connected; cbn [lights_state door_relay_state].
  rewrite L, D. now split.
Qed.

Lemma run_off_unless_connected trace :
  forall s, off_unless_connected s -> off_unless_connected (run trace s).
Proof.
  unfold run. induction trace as [|we rest IH]; intros s H; simpl; trivial.
  apply IH. eapply quiet_keeps_off; [apply step_quiet | exact H].
Qed.

(** In every run, lights and door are off as long as no device was found:
    without a connection every actuation returns before touching a flag. *)
Lemma reachable_off_unless_connected w0 early w1 trace :
  off_unless_connected (run trace (startup w0 early w1)).
Proof.
  apply run_off_unless_connected, startup_off_unless_connected.
Qed.

(** Normal form of an actuation: a suffix of the log, and its [effect] when
    the controller is connected. *)
Lemma actuate_shape a w s :
  exists entries stamped,
    actuate a w s
    = set_log_text (log_text s ++ entries)%list
        (if is_connected s then effect a w stamped s else s).
Proof.
  destruct (is_connected s) eqn:Hc.
  - pose proof (actuate_connected a w s Hc) as H.
    destruct a; cbn [flag_update intended effect] in *.
    + destruct H as [l ->]. now exists l, true.
    + destruct H as [l ->]. now exists l, true.
    + destruct H as [[l ->]|[l ->]]; [now exists l, false | now exists l, true].
    + destruct H as [l ->]. now exists l, true.
  - rewrite (actuate_not_connected a w s Hc).
    now exists [log_entry w (not_connected_message a)], true.
Qed.

Ltac normal_form a w x :=
  let l := fresh "entries" in
  let b := fresh "stamped" in
  let E := fresh "E" in
  destruct (actuate_shape a w x) as (l & b & E);
  cbn [actuate] in E; rewrite E; clear E.

(** ** Energy-saving mode *)

Lemma change_mode_energy_saving w s :
  let s' := change_mode w "Energy Saving" s in
  temp_min s' = 18.0 /\ temp_max s' = 23.0 /\
  current_mode s' = "Energy Saving" /\
  auto_mode s' = true /\ scheduled_mode s' = true /\
  (off_unless_connected s -> lights_state s' = "Off").
Proof.
  unfold change_mode; cbn [String.eqb Ascii.eqb Bool.eqb andb]; cbv zeta.
  match goal with
  | |- context [turn_off_lights w ?x] => normal_form LightsOff w x
  end.
  cbn. destruct (is_connected s) eqn:Hc; cbn;
    do 5 (split; [reflexivity|]); intros H;
    [reflexivity | now destruct (H Hc)].
Qed.

(** C3.  In every state a run of the controller can be in, pressing
    "Energy Saving" leaves [temp_min = 18.0], [temp_max = 23.0], the lights
    flag "Off" and the mode "Energy Saving", with [auto_mode] and
    [scheduled_mode] both set. *)
Theorem energy_saving_mode_result :
  forall (w0 : Env) (early : list (Env * tick)) (w1 : Env)
         (trace : list (Env * event)) (w : Env),
    let s' := change_mode w "Energy Saving" (reached w0 early w1 trace) in
    temp_min s' = 18.0 /\ temp_max s' = 23.0 /\
    lights_state s' = "Off" /\ current_mode s' = "Energy Saving" /\
    auto_mode s' = true /\ scheduled_mode s' = true.
Proof.
  intros w0 early w1 trace w.
  destruct (change_mode_energy_saving w (reached w0 early w1 trace))
    as (A & B & C & D & E & F).
  repeat split; trivial.
  apply F, reachable_off_unless_connected.
Qed.

(** ** Macros *)

Lemma apply_macro_night w s :
  let s' := apply_macro w "Night" s in
  current_temp s' = 19.0 /\
  (off_unless_connected s ->
   lights_state s' = "Off" /\ door_relay_state s' = "Off").
Proof.
  unfold apply_macro; cbn [lookup macros String.eqb Ascii.eqb Bool.eqb andb
                             lights door temperature]; cbv zeta.
  normal_form LightsOff w s.
  match goal with
  | |- context [turn_off_door_relay w ?x] => normal_form DoorClose w x
  end.
  cbn. destruct (is_connected s) eqn:Hc; cbn; rewrite ?Hc; cbn;
    (split; [reflexivity|]); intros H; [now split | exact (H Hc)].
Qed.

(** C5.  In every state a run of the controller can be in, the "Night" macro
    leaves the lights flag "Off", the door flag "Off" and [current_temp]
    equal to 19.0: the temperature is assigned in one step. *)
Theorem night_macro_result :
  forall (w0 : Env) (early : list (Env * tick)) (w1 : Env)
         (trace : list (Env * event)) (w : Env),
    let s' := apply_macro w "Night" (reached w0 early w1 trace) in
    lights_state s' = "Off" /\ current_temp s' = 19.0 /\
    door_relay_state s' = "Off".
Proof.
  intros w0 early w1 trace w.
  destruct (apply_macro_night w (reached w0 early w1 trace)) as (A & B).
  destruct (B (reachable_off_unless_connected w0 early w1 trace)).
  repeat split; trivial.
Qed.

(** ** Door time-out *)

Lemma Qlt_bool_iff x y : Qlt_bool x y = true <-> x < y.
Proof.
  unfold Qlt_bool. rewrite negb_true_iff. split.
  - intros H. apply Qnot_le_lt. intros L.
    apply Qle_bool_iff in L. congruence.
  - intros H. destruct (Qle_bool y x) eqn:E; trivial.
    apply Qle_bool_iff in E. exfalso. exact (Qlt_not_le _ _ H E).
Qed.

Lemma Qlt_bool_false_iff x y : Qlt_bool x y = false <-> y <= x.
Proof.
  unfold Qlt_bool. rewrite negb_false_iff. apply Qle_bool_iff.
Qed.

(** The heating/cooling part of an [auto_mode_monitor] iteration leaves the
    door, its time stamp and the connection flag as they were. *)
Lemma lights_actuation_keeps_door (a : actuation) w s :
  a = LightsOn \/ a = LightsOff ->
  door_relay_state (actuate a w s) = door_relay_state s /\
  door_open_time (actuate a w s) = door_open_time s /\
  is_connected (actuate a w s) = is_connected s.
Proof.
  intros Ha. destruct (actuate_shape a w s) as (l & b & ->).
  destruct Ha as [-> | ->]; destruct (is_connected s) eqn:Hc; cbn;
    now rewrite ?Hc.
Qed.

(** C1 (as amended).  The door time-out follows the flag [auto_mode], not
    the displayed mode name.  [change_mode] sets the flag for "Auto" and
    "Energy Saving" and clears it for every other mode ("Manual",
    "Schedule"); the "Enable Schedule" check box renames the mode without
    touching the flag.  Take a state whose door flag is "On" and whose
    [door_open_time] lies more than 10 seconds before the clock reading.  If
    [auto_mode] is set, one iteration of [auto_mode_monitor] calls
    [turn_off_door_relay] and then appends the entry "Auto-closed door after
    timeout"; with a connection the door flag is "Off" afterwards.  If
    [auto_mode] is not set, the iteration changes nothing. *)
Theorem door_timeout_needs_auto_mode :
  (forall (w : Env) (mode : string) (s : BuildingAutomationSystem),
      auto_mode (change_mode w mode s) = mode_auto mode) /\
  (forall (w : Env) (s : BuildingAutomationSystem),
      auto_mode (do_command w ClickEnableSchedule s) = auto_mode s) /\
  (forall (w : Env) (s : BuildingAutomationSystem),
      door_relay_state s = "On" ->
      10 < time_time w - door_open_time s ->
      if auto_mode s then
        exists s1,
          door_relay_state s1 = "On" /\
          door_open_time s1 = door_open_time s /\
          is_connected s1 = is_connected s /\
          auto_mode_monitor_tick w s
          = log_event w "Auto-closed door after timeout"
              (turn_off_door_relay w s1) /\
          log_text (auto_mode_monitor_tick w s)
          = (log_text (turn_off_door_relay w s1)
             ++ [log_entry w "Auto-closed door after timeout"])%list /\
          (is_connected s = true ->
           door_relay_state (auto_mode_monitor_tick w s) = "Off")
      else auto_mode_monitor_tick w s = s).
Proof.
  split; [|split].
  { intros w mode s. unfold change_mode, mode_auto; cbv zeta.
    destruct (String.eqb_spec mode "Auto") as [->|NA]; [reflexivity|].
    destruct (String.eqb_spec mode "Schedule") as [->|NS]; [reflexivity|].
    destruct (String.eqb_spec mode "Energy Saving") as [->|NE];
      [|reflexivity].
    match goal with
    | |- context [turn_off_lights w ?x] => normal_form LightsOff w x
    end.
    cbn. now destruct (is_connected s). }
  { intros w s. cbn [do_command]. unfold toggle_scheduled_mode.
    cbn [scheduled_mode set_scheduled_mode].
    now destruct (negb (scheduled_mode s)). }
  intros w s Hd Ht. unfold auto_mode_monitor_tick.
  destruct (auto_mode s); [|reflexivity]. cbv zeta.
  match goal with
  | |- context [door_relay_state ?x =? "On"] => set (s1 := x)
  end.
  assert (K : door_relay_state s1 = door_relay_state s /\
              door_open_time s1 = door_open_time s /\
              is_connected s1 = is_connected s).
  { subst s1.
    destruct (Qlt_bool (current_temp s) (temp_min s));
      [destruct (lights_state s =? "Off")
      |destruct (Qlt_bool (temp_max s) (current_temp s));
        [destruct (lights_state s =? "On")|]];
      try (repeat split; reflexivity).
    - apply (lights_actuation_keeps_door LightsOn); now left.
    - apply (lights_actuation_keeps_door LightsOff); now right. }
  destruct K as (K1 & K2 & K3).
  exists s1. rewrite K1, K2, Hd.
  assert (T : Qlt_bool 10 (time_time w - door_open_time s) = true)
    by now apply Qlt_bool_iff.
  rewrite T. cbn [String.eqb Ascii.eqb Bool.eqb andb].
  repeat split; trivial.
  intros Hc. rewrite <- K3 in Hc.
  destruct (actuate_shape DoorClose w s1) as (l & b & E).
  cbn [actuate] in E. rewrite E, Hc. reflexivity.
Qed.

Lemma door_timeout_needs_auto_mode_witness :
  door_relay_state
    (turn_on_door_relay (online 100)
       (change_mode (online 50) "Auto" started_connected)) = "On" /\
  10 < time_time (online 200)
       - door_open_time
           (turn_on_door_relay (online 100)
              (change_mode (online 50) "Auto" started_connected)) /\
  door_relay_state
    (auto_mode_monitor_tick (online 200)
       (turn_on_door_relay (online 100)
          (change_mode (online 50) "Auto" started_connected))) = "Off".
Proof.
  split; [reflexivity|]. split; [reflexivity|].
  destruct (proj2 (proj2 door_timeout_needs_auto_mode) (online 200)
              (turn_on_door_relay (online 100)
                 (change_mode (online 50) "Auto" started_connected))
              eq_refl eq_refl) as (s1 & _ & _ & _ & _ & _ & H).
  apply H. reflexivity.
Defined.

(** The mode name alone does not tell: after "Auto", ticking and clearing
    "Enable Schedule" leaves the mode "Manual" with [auto_mode] still set,
    and a door open for 100 seconds is then closed by the iteration. *)
Lemma door_timeout_applies_in_manual_mode_with_auto_flag :
  let s := run [(online 10, Command (ClickMode "Auto"));
                (online 20, Command ClickEnableSchedule);
                (online 30, Command ClickEnableSchedule);
                (online 100, Command ClickDoorOpen)] started_connected in
  current_mode s = "Manual" /\ auto_mode s = true /\
  door_relay_state s = "On" /\
  door_relay_state (auto_mode_monitor_tick (online 200) s) = "Off".
Proof.
  cbv zeta. repeat split; reflexivity.
Qed.

(** C1, as stated, fails: after a start with both devices present the
    operator opens the door at second 100 and the mode stays "Manual"; at
    second 200 an iteration of [auto_mode_monitor] leaves the door open and
    the log as it was. *)
Lemma door_timeout_ignored_in_manual_mode :
  let s := run [(online 100, Command ClickDoorOpen)] started_connected in
  current_mode s = "Manual" /\
  door_relay_state s = "On" /\
  10 < time_time (online 200) - door_open_time s /\
  door_relay_state (auto_mode_monitor_tick (online 200) s) = "On" /\
  log_text (auto_mode_monitor_tick (online 200) s) = log_text s.
Proof.
  cbv zeta. repeat split; reflexivity.
Qed.

(** [start_all_monitoring] runs while [auto_mode] still has its initial value
    [False], so the [auto_mode_monitor] loop is not among the started ones. *)
Lemma auto_mode_monitor_not_started w :
  fst (start_all_monitoring w (setup_gui w (init w)))
  = [Thread_monitor_temperature; Thread_monitor_schedule;
     Thread_monitor_energy_usage].
Proof. reflexivity. Qed.

(** ** Temperature range *)

Lemma set_temperature_range_rejects w s :
  temp_max s <= temp_min s ->
  set_temperature_range w s = show range_error s.
Proof.
  intros H. unfold set_temperature_range.
  apply Qle_bool_iff in H. now rewrite H.
Qed.

(** C4 (as amended).  For all [(min, max)] with [min >= max] the command
    shows the range-error dialog and logs nothing, and the handler writes no
    field of the state.  The bounds it checks are, however, read from
    [temp_min] and [temp_max] themselves, which the two entry fields write
    into: after the rejected command these hold the entered pair. *)
Theorem invalid_range_reported_but_stored :
  forall (w : Env) (min_temp max_temp : Q) (s : BuildingAutomationSystem),
    max_temp <= min_temp ->
    let s' := setTemperatureRange w min_temp max_temp s in
    s' = show range_error (set_temp_max max_temp (set_temp_min min_temp s)) /\
    messagebox s' = (messagebox s ++ [range_error])%list /\
    log_text s' = log_text s /\
    temp_min s' = min_temp /\ temp_max s' = max_temp.
Proof.
  intros w mn mx s H. cbv zeta.
  unfold setTemperatureRange; cbn [do_command].
  rewrite set_temperature_range_rejects by exact H.
  repeat split.
Qed.

Lemma invalid_range_reported_but_stored_witness :
  10 <= 30 /\
  temp_min (setTemperatureRange (online 10) 30 10 started_connected) = 30.
Proof.
  split; [discriminate|].
  apply (invalid_range_reported_but_stored (online 10) 30 10
           started_connected).
  discriminate.
Defined.

(** C4, as stated, fails: the controller starts with the range 20.0 to 25.0;
    the operator enters 30 and 10 and presses "Set".  The error dialog
    appears, and the stored range is now 30 to 10. *)
Lemma rejected_range_replaces_previous_one :
  let s := started_connected in
  let s' := setTemperatureRange (online 10) 30 10 s in
  temp_min s = 20.0 /\ temp_max s = 25.0 /\
  messagebox s' = [range_error] /\
  temp_min s' = 30 /\ temp_max s' = 10 /\
  (temp_min s', temp_max s') <> (temp_min s, temp_max s).
Proof.
  cbv zeta. repeat split; try reflexivity. discriminate.
Qed.

(** ** Door time stamp *)

Lemma stamp_kept_or_now_refl w s : stamp_kept_or_now w s s.
Proof. now left. Qed.

Lemma stamp_kept_or_now_trans w s1 s2 s3 :
  stamp_kept_or_now w s1 s2 -> stamp_kept_or_now w s2 s3 ->
  stamp_kept_or_now w s1 s3.
Proof.
  unfold stamp_kept_or_now. intros [A|A] [B|B]; rewrite <- ?A; auto.
  rewrite B, A; auto.
Qed.

Lemma appends_stamp w s s' : appends s s' -> stamp_kept_or_now w s s'.
Proof. intros [l ->]. now left. Qed.

Lemma actuate_stamp w a s : stamp_kept_or_now w s (actuate a w s).
Proof.
  destruct (actuate_shape a w s) as (l & b & ->).
  unfold stamp_kept_or_now.
  destruct a, b, (is_connected s); cbn; auto.
Qed.

Ltac close_stamp H := unfold stamp_kept_or_now in *; simpl; exact H.

Ltac stamp_tac w :=
  frame_with (stamp_kept_or_now w) (stamp_kept_or_now_refl w)
    (stamp_kept_or_now_trans w) (appends_stamp w)
    (fun _ : Env => actuate_stamp w) close_stamp.

Lemma do_command_stamp w c s : stamp_kept_or_now w s (do_command w c s).
Proof.
  destruct c; cbn [do_command];
    unfold change_mode, apply_macro, update_schedule, toggle_scheduled_mode,
      set_temperature_range, all_systems_on, all_systems_off;
    cbv zeta; split_ifs; stamp_tac w.
Qed.

Lemma do_tick_stamp w t s : stamp_kept_or_now w s (do_tick w t s).
Proof.
  destruct t; cbn [do_tick];
    unfold monitor_temperature_tick, monitor_schedule_tick,
      auto_mode_monitor_tick, monitor_energy_usage_tick;
    cbv zeta; split_ifs; stamp_tac w.
Qed.

(** C8 (as amended).  [door_open_time] is never cleared: closing the door
    leaves it as it was.  It is set to the clock reading by every
    [turn_on_door_relay] that passes the connection check and whose [try]
    body ends normally, whether the door was closed or already open.  And no
    command or loop iteration gives it any value other than its old one or
    the clock reading of that step. *)
Theorem door_open_time_stamped_never_cleared :
  forall (w : Env) (s : BuildingAutomationSystem),
    door_open_time (turn_off_door_relay w s) = door_open_time s /\
    (is_connected s = true ->
     snd (turn_on_door_relay_try w s) = Normal ->
     door_relay_state (turn_on_door_relay w s) = "On" /\
     door_open_time (turn_on_door_relay w s) = time_time w) /\
    (forall ev : event, stamp_kept_or_now w s (step s (w, ev))).
Proof.
  intros w s. split; [|split].
  - destruct (actuate_shape DoorClose w s) as (l & b & E).
    cbn [actuate] in E. rewrite E. now destruct (is_connected s).
  - intros Hc Hn. unfold turn_on_door_relay.
    unfold turn_on_door_relay_try in *. rewrite Hc in *; cbn [negb] in *.
    destruct (door_exchange w door_open_frame s) as [s1 [|e]];
      cbn in *; [now split | discriminate].
  - intros [t|c]; unfold step; cbn [fst snd];
      [apply do_tick_stamp | apply do_command_stamp].
Qed.

Lemma door_open_time_stamped_never_cleared_witness :
  is_connected started_connected = true /\
  snd (turn_on_door_relay_try (online 100) started_connected) = Normal /\
  door_open_time (turn_on_door_relay (online 100) started_connected) = 100.
Proof.
  split; [reflexivity|]. split; [reflexivity|].
  apply (door_open_time_stamped_never_cleared (online 100)
           started_connected); reflexivity.
Defined.

(** C8, as stated, fails in both halves.  The door is opened at second 100
    and closed at second 105: the flag is "Off" and [door_open_time] is still
    100, not its initial 0.  The door is opened at second 100 and "Open" is
    pressed again at second 150: the flag was "On" throughout, yet
    [door_open_time] moves to 150. *)
Lemma door_open_time_kept_on_close_and_restamped :
  let once := run [(online 100, Command ClickDoorOpen)] started_connected in
  let closed := run [(online 105, Command ClickDoorClose)] once in
  let again := run [(online 150, Command ClickDoorOpen)] once in
  door_open_time started_connected = 0 /\
  door_relay_state closed = "Off" /\ door_open_time closed = 100 /\
  door_relay_state once = "On" /\ door_open_time once = 100 /\
  door_relay_state again = "On" /\ door_open_time again = 150.
Proof.
  cbv zeta. repeat split; reflexivity.
Qed.

(** On the exception path of [turn_on_door_relay] the flag becomes "On" but
    the line recording [door_open_time] is not reached. *)
Lemma door_opened_by_error_path_is_not_stamped w s s1 e :
  turn_on_door_relay_try w s = (s1, Raised e) ->
  door_relay_state (turn_on_door_relay w s) = "On" /\
  door_open_time (turn_on_door_relay w s) = door_open_time s.
Proof.
  intros H. pose proof (actuate_try_raised_appends DoorOpen w s s1 e H) as A.
  unfold turn_on_door_relay. rewrite H. destruct A as [l ->]. now split.
Qed.

(** ** Re-entering a mode *)

Lemma change_mode_settles w mode s : settled mode (change_mode w mode s).
Proof.
  unfold settled, change_mode, mode_auto, mode_scheduled; cbv zeta.
  destruct (String.eqb_spec mode "Auto") as [->|NA];
    [cbn; now repeat split|].
  destruct (String.eqb_spec mode "Schedule") as [->|NS];
    [cbn; now repeat split|].
  destruct (String.eqb_spec mode "Energy Saving") as [->|NE];
    [|cbn; now repeat split].
  match goal with
  | |- context [turn_off_lights w ?x] => normal_form LightsOff w x
  end.
  cbn. destruct (is_connected s) eqn:Hc; cbn; rewrite ?Hc;
    repeat split; solve [left; reflexivity | right; reflexivity].
Qed.

(** C9 (as amended).  [change_mode mode] always ends in a state that carries
    the settings of [mode] (the two mode flags and, for "Energy Saving", the
    range 18.0 to 23.0 with the lights off when connected).  In a state that
    carries them already, [change_mode mode] changes nothing but the log, and
    the last entry it appends is "Mode changed to <mode>": for every mode
    other than "Energy Saving" this is the only entry; for "Energy Saving" it
    is preceded by exactly the entries the repeated [turn_off_lights]
    writes, and that call too changes nothing but the log. *)
Theorem reentering_mode_with_settings_intact :
  forall (w : Env) (mode : string) (s : BuildingAutomationSystem),
    settled mode (change_mode w mode s) /\
    (settled mode s ->
     exists entries,
       change_mode w mode s
       = set_log_text
           (log_text s ++ entries
            ++ [log_entry w ("Mode changed to " ++ mode)])%list s /\
       (mode <> "Energy Saving" -> entries = []) /\
       (mode = "Energy Saving" ->
        turn_off_lights w s = set_log_text (log_text s ++ entries)%list s)).
Proof.
  intros w mode s. split; [apply change_mode_settles|].
  unfold settled, change_mode, mode_auto, mode_scheduled; cbv zeta.
  intros (Hm & Ha & Hs & He).
  assert (Plain : forall x, x = s ->
            mode <> "Energy Saving" ->
            exists entries,
              log_event w ("Mode changed to " ++ mode) x
              = set_log_text
                  (log_text s ++ entries
                   ++ [log_entry w ("Mode changed to " ++ mode)])%list s /\
              (mode <> "Energy Saving" -> entries = []) /\
              (mode = "Energy Saving" ->
               turn_off_lights w s
               = set_log_text (log_text s ++ entries)%list s)).
  { intros x -> N. exists []. split; [reflexivity|].
    split; [reflexivity | intros E; now elim N]. }
  destruct (String.eqb_spec mode "Auto") as [->|NA].
  { cbn in *. apply Plain; [|discriminate].
    destruct s; cbn in *; now subst. }
  destruct (String.eqb_spec mode "Schedule") as [->|NS].
  { cbn in *. apply Plain; [|discriminate].
    destruct s; cbn in *; now subst. }
  destruct (String.eqb_spec mode "Energy Saving") as [->|NE].
  { clear Plain. cbn in Ha, Hs. destruct He as (Tmin & Tmax & Hl).
    assert (E : set_temp_max 23.0
                  (set_temp_min 18.0
                     (set_scheduled_mode true
                        (set_auto_mode true
                           (set_current_mode "Energy Saving" s)))) = s)
      by (destruct s; cbn in *; now subst).
    rewrite E.
    destruct (actuate_shape LightsOff w s) as (l & b & A).
    cbn [actuate effect] in A.
    assert (A' : turn_off_lights w s
                 = set_log_text (log_text s ++ l)%list s).
    { rewrite A. destruct (is_connected s); [|reflexivity].
      destruct Hl as [Hl|Hl]; [|discriminate].
      f_equal. destruct s; cbn in *; now subst. }
    exists l. split; [|split; [congruence | intros _; exact A']].
    rewrite A'. unfold log_event, set_log_text; cbn.
    now rewrite <- app_assoc. }
  cbn in Ha, Hs. apply Plain; [|exact NE].
  destruct s; cbn in *; now subst.
Qed.

Lemma reentering_mode_with_settings_intact_witness :
  settled "Energy Saving"
    (change_mode (online 10) "Energy Saving" started_connected) /\
  log_text
    (change_mode (online 20) "Energy Saving"
       (change_mode (online 10) "Energy Saving" started_connected))
  = (log_text (turn_off_lights (online 20)
                 (change_mode (online 10) "Energy Saving" started_connected))
     ++ [log_entry (online 20) "Mode changed to Energy Saving"])%list.
Proof.
  assert (H : settled "Energy Saving"
                (change_mode (online 10) "Energy Saving" started_connected))
    by (cbv; repeat split; left; reflexivity).
  split; [exact H|].
  destruct (proj2 (reentering_mode_with_settings_intact (online 20)
                     "Energy Saving"
                     (change_mode (online 10) "Energy Saving"
                        started_connected)) H)
    as (entries & E & _ & L).
  rewrite E, (L eq_refl). cbn [log_text set_log_text].
  now rewrite app_assoc.
Defined.

(** C9, as stated, fails.  In "Energy Saving" mode the operator switches the
    lights on; pressing "Energy Saving" again switches them off.  And after
    "Auto" the check box "Enable Schedule" is ticked and cleared, which leaves
    the mode "Manual" with [auto_mode] still set; pressing "Manual" clears
    [auto_mode]. *)
Lemma reentering_mode_changes_more_than_log :
  let saving :=
    run [(online 10, Command (ClickMode "Energy Saving"));
         (online 20, Command ClickLightsOn)] started_connected in
  let manual :=
    run [(online 10, Command (ClickMode "Auto"));
         (online 20, Command ClickEnableSchedule);
         (online 30, Command ClickEnableSchedule)] started_connected in
  current_mode saving = "Energy Saving" /\
  lights_state saving = "On" /\
  lights_state (change_mode (online 40) "Energy Saving" saving) = "Off" /\
  current_mode manual = "Manual" /\
  auto_mode manual = true /\
  auto_mode (change_mode (online 40) "Manual" manual) = false.
Proof.
  cbv zeta. repeat split; reflexivity.
Qed.

(** ** Climate regulation *)

(** C6 (as amended).  With [auto_mode] set, one iteration of
    [monitor_temperature] compares the perturbed reading
    [current_temp + fluctuation] (before it is rounded for storage) with the
    band.  Below [temp_min]: the "below minimum" entry is logged and
    [turn_on_lights] is called.  Not below [temp_min] and above [temp_max]:
    the "above maximum" entry is logged and [turn_off_lights] is called.
    Within the band: only the two readings change; nothing is logged and no
    actuation is called. *)
Theorem climate_tick_regulation :
  forall (w : Env) (fluctuation humidity_change : Q)
         (s : BuildingAutomationSystem),
    auto_mode s = true ->
    let new_temp := current_temp s + fluctuation in
    let p := perturbed fluctuation humidity_change s in
    let s' := monitor_temperature_tick w fluctuation humidity_change s in
    (new_temp < temp_min s ->
     s' = turn_on_lights w (log_event w (below_minimum w new_temp) p)) /\
    (temp_min s <= new_temp -> temp_max s < new_temp ->
     s' = turn_off_lights w (log_event w (above_maximum w new_temp) p)) /\
    (temp_min s <= new_temp -> new_temp <= temp_max s ->
     s' = p /\ log_text s' = log_text s /\
     lights_state s' = lights_state s /\
     door_relay_state s' = door_relay_state s).
Proof.
  intros w fl hc s Ha. cbv zeta.
  unfold monitor_temperature_tick; cbv zeta.
  cbn [temp_min temp_max auto_mode set_current_humidity set_current_temp].
  rewrite Ha, !andb_true_r.
  fold (perturbed fl hc s).
  fold (below_minimum w (current_temp s + fl)).
  fold (above_maximum w (current_temp s + fl)).
  split; [|split].
  - intros H. apply Qlt_bool_iff in H. now rewrite H.
  - intros H1 H2. apply Qlt_bool_false_iff in H1. apply Qlt_bool_iff in H2.
    now rewrite H1, H2.
  - intros H1 H2. apply Qlt_bool_false_iff in H1, H2.
    rewrite H1, H2. repeat split.
Qed.

Lemma climate_tick_regulation_witness :
  auto_mode (change_mode (online 10) "Auto" started_connected) = true /\
  current_temp (change_mode (online 10) "Auto" started_connected) + (-3)
  < temp_min (change_mode (online 10) "Auto" started_connected) /\
  lights_state
    (monitor_temperature_tick (online 20) (-3) 0
       (change_mode (online 10) "Auto" started_connected)) = "On".
Proof.
  split; [reflexivity|]. split; [reflexivity|].
  destruct (climate_tick_regulation (online 20) (-3) 0
              (change_mode (online 10) "Auto" started_connected) eq_refl)
    as (H & _ & _).
  rewrite (H eq_refl). reflexivity.
Defined.

(** C6, as stated, fails where the band is inverted.  In "Auto" mode the
    operator enters the range 30 to 10 (the "Set" button reports the error,
    the values stay).  With a reading of 22.0 the iteration finds the
    temperature above [temp_max], but it takes the first branch: it logs
    "below minimum" and calls [turn_on_lights]; the lights end up "On". *)
Lemma inverted_band_heats_although_above_maximum :
  let s :=
    run [(online 10, Command (ClickMode "Auto"));
         (online 20, Command (TypeTemperatureRange 30 10));
         (online 20, Command ClickSetTemperatureRange)] started_connected in
  let s' := monitor_temperature_tick (online 30) 0 0 s in
  auto_mode s = true /\
  temp_max s < current_temp s + 0 /\
  s' = turn_on_lights (online 30)
         (log_event (online 30)
            (below_minimum (online 30) (current_temp s + 0))
            (perturbed 0 0 s)) /\
  lights_state s' = "On" /\
  s' <> turn_off_lights (online 30)
          (log_event (online 30)
             (above_maximum (online 30) (current_temp s + 0))
             (perturbed 0 0 s)).
Proof.
  cbv zeta. split; [reflexivity|]. split; [reflexivity|].
  split; [vm_compute; reflexivity|]. split; [vm_compute; reflexivity|].
  intros E. apply (f_equal lights_state) in E. vm_compute in E.
  discriminate.
Qed.

(** The stored reading is the rounded one: a perturbed reading of 19.96
    against a minimum of 20.0 starts the heating, and 20.0 is stored. *)
Lemma stored_reading_is_rounded :
  let s := set_current_temp 20.0
             (change_mode (online 10) "Auto" started_connected) in
  let s' := monitor_temperature_tick (online 20) (-0.04) 0 s in
  current_temp s' = 20.0 /\ temp_min s' = 20.0 /\ lights_state s' = "On".
Proof.
  cbv zeta. repeat split; vm_compute; reflexivity.
Qed.

(** ** Energy accounting *)

Lemma round_half_even_above_floor x : (Qfloor x <= round_half_even x)%Z.
Proof.
  unfold round_half_even.
  destruct (Qcompare _ _); [destruct (Z.even _)| |]; lia.
Qed.

Lemma py_round_2 x : py_round x 2 = Qmake (round_half_even (x * 100)) 100.
Proof. reflexivity. Qed.

(** Rounding to hundredths never takes a value below a grid point it has
    reached or passed. *)
Lemma py_round_2_above_grid x d k :
  x == Qmake k 100 -> 0 <= d -> x <= py_round (x + d) 2.
Proof.
  intros Hx Hd. rewrite py_round_2.
  assert (F : (k <= round_half_even ((x + d) * 100))%Z).
  { eapply Z.le_trans; [|apply round_half_even_above_floor].
    rewrite <- (Qfloor_Z k) at 1. apply Qfloor_resp_le.
    destruct x as [xn xd], d as [dn dd].
    unfold Qle, Qeq, Qmult, Qplus, inject_Z in *; simpl in *.
    assert (0 <= dn * Z.pos xd)%Z by nia. nia. }
  destruct x as [xn xd].
  unfold Qle, Qeq in *; simpl in *. nia.
Qed.

Lemma energy_increment_nonneg w s :
  last_energy_update s <= time_time w -> 0 <= energy_increment w s.
Proof.
  intros H. unfold energy_increment; cbv zeta.
  apply Qmult_le_0_compat; [apply Qmult_le_0_compat|discriminate].
  - destruct (lights_state s =? "On"), (door_relay_state s =? "On");
      discriminate.
  - apply Qmult_le_0_compat; [|discriminate].
    now apply -> Qle_minus_iff.
Qed.

Lemma energy_tick_on_grid w s : on_grid (monitor_energy_usage_tick w s).
Proof.
  unfold on_grid, monitor_energy_usage_tick.
  cbn [energy_usage set_last_energy_update set_energy_usage].
  rewrite py_round_2. eexists. reflexivity.
Qed.

Lemma same_energy_on_grid s s' : same_energy s s' -> on_grid s -> on_grid s'.
Proof. intros [E _] [k H]. exists k. now rewrite E. Qed.

Lemma do_tick_on_grid w t s : on_grid s -> on_grid (do_tick w t s).
Proof.
  intros H. destruct t;
    try (eapply same_energy_on_grid;
         [apply do_tick_same_energy; discriminate | exact H]).
  apply energy_tick_on_grid.
Qed.

Lemma step_on_grid s we : on_grid s -> on_grid (step s we).
Proof.
  intros H. destruct we as [w [t|c]]; unfold step; cbn [fst snd].
  - now apply do_tick_on_grid.
  - eapply same_energy_on_grid; [apply do_command_same_energy | exact H].
Qed.

Lemma reached_on_grid w0 early w1 trace :
  on_grid (reached w0 early w1 trace).
Proof.
  unfold reached, run.
  assert (B : on_grid (startup w0 early w1)).
  { unfold startup, try_connect_devices.
    set (base := snd (start_all_monitoring w0 (setup_gui w0 (init w0)))).
    assert (G : on_grid base) by (exists 0%Z; reflexivity).
    clearbody base. revert base G.
    induction early as [|[w t] rest IH]; intros base G; simpl.
    - exact G.
    - apply IH. now apply do_tick_on_grid. }
  revert B. generalize (startup w0 early w1).
  induction trace as [|we rest IH]; intros s B; simpl; trivial.
  apply IH. now apply step_on_grid.
Qed.

Lemma step_energy_monotone s we :
  on_grid s -> clock_ahead [we] s = true ->
  energy_usage s <= energy_usage (step s we).
Proof.
  intros [k G] C. destruct we as [w [t|c]]; unfold step; cbn [fst snd].
  - destruct t;
      match goal with
      | |- context [do_tick w ?t s] =>
        try (destruct (do_tick_same_energy w t s) as [E _];
             [discriminate|]; rewrite E; apply Qle_refl)
      end.
    cbn [clock_ahead snd fst] in C. rewrite andb_true_r in C.
    apply Qle_bool_iff in C.
    cbn [do_tick]. unfold monitor_energy_usage_tick.
    cbn [energy_usage set_last_energy_update set_energy_usage].
    eapply py_round_2_above_grid; [exact G|].
    now apply energy_increment_nonneg.
  - destruct (do_command_same_energy w c s) as [E _].
    rewrite E. apply Qle_refl.
Qed.

Lemma run_energy_monotone trace :
  forall s, on_grid s -> clock_ahead trace s = true ->
            energy_usage s <= energy_usage (run trace s).
Proof.
  unfold run. induction trace as [|we rest IH]; intros s G C; simpl.
  - apply Qle_refl.
  - cbn [clock_ahead] in C. apply andb_true_iff in C. destruct C as [C1 C2].
    eapply Qle_trans; [|apply IH; [now apply step_on_grid | exact C2]].
    apply step_energy_monotone; trivial.
    cbn [clock_ahead]. now rewrite C1.
Qed.

(** C7 (as amended).  One iteration of [monitor_energy_usage] stores
    [round (energy_usage + increment, 2)], where the increment is
    [((1.0 if lights on else 0.2) + (0.5 if door open else 0.0))
     * elapsed hours * 0.1], and sets [last_energy_update] to the clock
    reading.  In every run of the controller, however light and door change
    in between, the counter never decreases as long as no iteration sees a
    negative elapsed time. *)
Theorem energy_counter_rounded_and_monotone :
  (forall (w : Env) (s : BuildingAutomationSystem),
      energy_increment w s
      = ((if lights_state s =? "On" then 1.0 else 0.2)
         + (if door_relay_state s =? "On" then 0.5 else 0.0))
        * ((time_time w - last_energy_update s) / 3600) * 0.1 /\
      energy_usage (monitor_energy_usage_tick w s)
      = py_round (energy_usage s + energy_increment w s) 2 /\
      last_energy_update (monitor_energy_usage_tick w s) = time_time w) /\
  (forall (w0 : Env) (early : list (Env * tick)) (w1 : Env)
          (before trace : list (Env * event)),
      let s := reached w0 early w1 before in
      clock_ahead trace s = true ->
      energy_usage s <= energy_usage (run trace s)).
Proof.
  split.
  - intros w s. repeat split.
  - intros w0 early w1 before trace s C.
    apply run_energy_monotone; [apply reached_on_grid | exact C].
Qed.

Lemma energy_counter_rounded_and_monotone_witness :
  clock_ahead
    [(online 50, Command ClickLightsOn);
     (online 7200, Tick EnergyTick);
     (online 7300, Command ClickDoorOpen);
     (online 14400, Tick EnergyTick)]
    (reached (online 0) [] (online 0) []) = true /\
  energy_usage (reached (online 0) [] (online 0) [])
  <= energy_usage
       (run [(online 50, Command ClickLightsOn);
             (online 7200, Tick EnergyTick);
             (online 7300, Command ClickDoorOpen);
             (online 14400, Tick EnergyTick)]
          (reached (online 0) [] (online 0) [])).
Proof.
  split; [vm_compute; reflexivity|].
  apply (proj2 energy_counter_rounded_and_monotone
           (online 0) [] (online 0) []).
  vm_compute; reflexivity.
Defined.

(** C7, as stated, fails: the sum is rounded to two decimals before it is
    stored.  With lights on and door open, a sample taken 60 seconds after
    the previous one has a positive increment (1/400 kWh), yet the counter
    keeps its value. *)
Lemma small_increment_is_rounded_away :
  let s := run [(online 0, Command ClickLightsOn);
                (online 0, Command ClickDoorOpen)] started_connected in
  let s' := monitor_energy_usage_tick (online 60) s in
  energy_increment (online 60) s == 1 # 400 /\
  energy_usage s' == energy_usage s /\
  ~ energy_usage s' == energy_usage s + energy_increment (online 60) s.
Proof.
  cbv zeta. split; [vm_compute; reflexivity|].
  split; [vm_compute; reflexivity|].
  vm_compute. discriminate.
Qed.

(** * Further properties of the controller *)

(** ** The log and the dialogs only grow *)

Lemma grows_refl s : grows s s.
Proof. exists [], []. now rewrite !app_nil_r. Qed.

Lemma grows_trans s1 s2 s3 : grows s1 s2 -> grows s2 s3 -> grows s1 s3.
Proof.
  intros (l1 & d1 & L1 & D1) (l2 & d2 & L2 & D2).
  exists (l1 ++ l2)%list, (d1 ++ d2)%list.
  rewrite L2, D2, L1, D1, !app_assoc. now split.
Qed.

Lemma appends_grows s s' : appends s s' -> grows s s'.
Proof.
  intros [l ->]. exists l, []. cbn. now rewrite app_nil_r.
Qed.

Lemma actuate_grows a w s : grows s (actuate a w s).
Proof.
  destruct (actuate_shape a w s) as (l & b & ->).
  exists l, []. rewrite app_nil_r.
  destruct a, b, (is_connected s); now split.
Qed.

Ltac close_grows H :=
  let l := fresh in
  let d := fresh in
  let L := fresh in
  let D := fresh in
  destruct H as (l & d & L & D);
  first
    [ exists l, d; split; simpl; assumption
    | unfold show; cbn [log_text messagebox set_messagebox];
      rewrite D, <- app_assoc; exists l; eexists; split;
      [exact L | reflexivity] ].

Ltac grows_tac :=
  frame_with grows grows_refl grows_trans appends_grows
    (fun w a s => actuate_grows a w s) close_grows.

Lemma do_command_grows w c s : grows s (do_command w c s).
Proof.
  destruct c; cbn [do_command];
    unfold change_mode, apply_macro, update_schedule, toggle_scheduled_mode,
      set_temperature_range, all_systems_on, all_systems_off;
    cbv zeta; split_ifs; grows_tac.
Qed.

Lemma do_tick_grows w t s : grows s (do_tick w t s).
Proof.
  destruct t; cbn [do_tick];
    unfold monitor_temperature_tick, monitor_schedule_tick,
      auto_mode_monitor_tick, monitor_energy_usage_tick;
    cbv zeta; split_ifs; grows_tac.
Qed.

(** X1.  The event log is append-only, and so is the list of dialogs: over
    any sequence of commands and loop iterations, from any state, the log at
    the end is the log at the start followed by new entries, and no dialog
    shown earlier is lost. *)
Theorem log_is_append_only :
  forall (trace : list (Env * event)) (s : BuildingAutomationSystem),
    exists entries dialogs,
      log_text (run trace s) = (log_text s ++ entries)%list /\
      messagebox (run trace s) = (messagebox s ++ dialogs)%list.
Proof.
  unfold run. induction trace as [|[w e] rest IH]; intros s; simpl.
  - apply grows_refl.
  - apply (grows_trans s (step s (w, e))); [|apply IH].
    unfold step; cbn [fst snd].
    destruct e; [apply do_tick_grows | apply do_command_grows].
Qed.

(** ** The connection flag is decided once *)

Lemma run_quiet trace : forall s, quiet s (run trace s).
Proof.
  unfold run. induction trace as [|we rest IH]; intros s; simpl.
  - apply quiet_refl.
  - eapply quiet_trans; [apply step_quiet | apply IH].
Qed.

(** X2.  [is_connected] is written by the start-up probe only: at every
    point of every run it equals the outcome of that probe.  After a failed
    probe no command and no loop iteration ever changes the lights or the
    door flag: both are "Off" for the whole session. *)
Theorem connection_decided_at_startup :
  forall (w0 : Env) (early : list (Env * tick)) (w1 : Env)
         (trace : list (Env * event)),
    is_connected (reached w0 early w1 trace) = probe_succeeds w1 /\
    (probe_succeeds w1 = false ->
     lights_state (reached w0 early w1 trace) = "Off" /\
     door_relay_state (reached w0 early w1 trace) = "Off").
Proof.
  intros w0 early w1 trace.
  assert (C : is_connected (reached w0 early w1 trace) = probe_succeeds w1).
  { unfold reached. destruct (run_quiet trace (startup w0 early w1)) as [C _].
    rewrite C. reflexivity. }
  split; [exact C|].
  intros F. apply reachable_off_unless_connected. now rewrite <- F.
Qed.

Lemma connection_decided_at_startup_witness :
  probe_succeeds (offline 0) = false /\
  lights_state
    (reached (online 0) [] (offline 0)
       [(online 5, Command ClickLightsOn);
        (online 6, Command (ClickMacro "Morning"))]) = "Off".
Proof.
  split; [reflexivity|].
  apply (connection_decided_at_startup (online 0) [] (offline 0)
           [(online 5, Command ClickLightsOn);
            (online 6, Command (ClickMacro "Morning"))]).
  reflexivity.
Defined.

(** ** Mode name and mode flags *)

Lemma controls_kept_refl s : controls_kept s s.
Proof. now repeat split. Qed.

Lemma controls_kept_trans s1 s2 s3 :
  controls_kept s1 s2 -> controls_kept s2 s3 -> controls_kept s1 s3.
Proof.
  intros (A1 & B1 & C1) (A2 & B2 & C2). repeat split; congruence.
Qed.

Lemma appends_controls_kept s s' : appends s s' -> controls_kept s s'.
Proof. intros [l ->]. now repeat split. Qed.

Lemma actuate_controls_kept a w s : controls_kept s (actuate a w s).
Proof.
  destruct (actuate_shape a w s) as (l & b & ->).
  destruct a, b, (is_connected s); now repeat split.
Qed.

Ltac close_controls H :=
  destruct H as (? & ? & ?); repeat split; simpl; assumption.

Ltac controls_tac :=
  frame_with controls_kept controls_kept_refl controls_kept_trans
    appends_controls_kept (fun w a s => actuate_controls_kept a w s)
    close_controls.

Lemma do_tick_controls_kept w t s : controls_kept s (do_tick w t s).
Proof.
  destruct t; cbn [do_tick];
    unfold monitor_temperature_tick, monitor_schedule_tick,
      auto_mode_monitor_tick, monitor_energy_usage_tick;
    cbv zeta; split_ifs; controls_tac.
Qed.

Lemma do_command_controls_kept w c s :
  (forall mode, c <> ClickMode mode) -> c <> ClickEnableSchedule ->
  controls_kept s (do_command w c s).
Proof.
  intros Hm He. destruct c; try congruence; try (now elim (Hm mode));
    cbn [do_command];
    unfold apply_macro, update_schedule, set_temperature_range,
      all_systems_on, all_systems_off;
    cbv zeta; split_ifs; controls_tac.
Qed.

Lemma controls_kept_consistent s s' :
  controls_kept s s' -> mode_consistent s -> mode_consistent s'.
Proof.
  intros (A & B & C) [H1 H2]. unfold mode_consistent.
  rewrite A, B, C. now split.
Qed.

Lemma change_mode_consistent w mode s : mode_consistent (change_mode w mode s).
Proof.
  destruct (change_mode_settles w mode s) as (A & B & C & _).
  unfold mode_consistent. rewrite A, B, C. now split.
Qed.

Lemma toggle_consistent w s :
  mode_consistent
    (toggle_scheduled_mode w (set_scheduled_mode (negb (scheduled_mode s)) s)).
Proof.
  unfold toggle_scheduled_mode, mode_consistent.
  cbn [scheduled_mode set_scheduled_mode].
  destruct (negb (scheduled_mode s)); cbn; split; trivial; discriminate.
Qed.

Lemma step_mode_consistent s we :
  mode_consistent s -> mode_consistent (step s we).
Proof.
  intros H. destruct we as [w [t|c]]; unfold step; cbn [fst snd].
  - eapply controls_kept_consistent; [apply do_tick_controls_kept | exact H].
  - destruct c;
      try (eapply controls_kept_consistent;
           [apply do_command_controls_kept; [intros ?|]; discriminate
           | exact H]).
    + apply change_mode_consistent.
    + apply toggle_consistent.
Qed.

(** X3.  In every run the schedule flag agrees with the mode name:
    [scheduled_mode] is set exactly when the mode is "Schedule" or
    "Energy Saving", whether the mode was last set by a mode button or by the
    "Enable Schedule" check box.  [auto_mode] is set whenever the mode is
    "Auto" or "Energy Saving". *)
Theorem mode_flags_follow_mode :
  forall (w0 : Env) (early : list (Env * tick)) (w1 : Env)
         (trace : list (Env * event)),
    let s := reached w0 early w1 trace in
    scheduled_mode s = mode_scheduled (current_mode s) /\
    (mode_auto (current_mode s) = true -> auto_mode s = true).
Proof.
  intros w0 early w1 trace. cbv zeta. unfold reached, run.
  assert (B : mode_consistent (startup w0 early w1)).
  { unfold startup, try_connect_devices.
    set (base := snd (start_all_monitoring w0 (setup_gui w0 (init w0)))).
    assert (G : mode_consistent base) by (split; [reflexivity|discriminate]).
    clearbody base. revert base G.
    induction early as [|[w t] rest IH]; intros base G; simpl.
    - exact G.
    - apply IH. eapply controls_kept_consistent;
        [apply do_tick_controls_kept | exact G]. }
  revert B. generalize (startup w0 early w1).
  induction trace as [|we rest IH]; intros s B; simpl; [exact B|].
  apply IH. now apply step_mode_consistent.
Qed.

Lemma mode_flags_follow_mode_witness :
  mode_auto
    (current_mode
       (reached (online 0) [] (online 0)
          [(online 5, Command (ClickMode "Auto"))])) = true /\
  auto_mode
    (reached (online 0) [] (online 0)
       [(online 5, Command (ClickMode "Auto"))]) = true.
Proof.
  split; [reflexivity|].
  apply (mode_flags_follow_mode (online 0) [] (online 0)
           [(online 5, Command (ClickMode "Auto"))]).
  reflexivity.
Defined.

(** ** Macros *)

Lemma lookup_none name d :
  lookup name d = None <-> ~ In name (map fst d).
Proof.
  induction d as [|[k v] rest IH]; simpl.
  - split; [intros _ []|reflexivity].
  - destruct (String.eqb_spec k name) as [->|N].
    + split; [discriminate|]. intros H. elim H. now left.
    + rewrite IH. split.
      * intros H [E|I]; [now elim N | now elim H].
      * intros H I. elim H. now right.
Qed.

(** X4.  A macro name that is not in the table changes nothing: no
    actuation is called, the temperature is not assigned and nothing is
    logged; the only effect is the error dialog "Macro '...' not found.". *)
Theorem unknown_macro_only_reports :
  forall (w : Env) (macro_name : string) (s : BuildingAutomationSystem),
    ~ In macro_name (map fst macros) ->
    apply_macro w macro_name s
    = set_messagebox
        (messagebox s
         ++ [showerror "Error" ("Macro '" ++ macro_name ++ "' not found.")])
        s.
Proof.
  intros w name s H. apply lookup_none in H.
  unfold apply_macro. now rewrite H.
Qed.

Lemma unknown_macro_only_reports_witness :
  ~ In "Party" (map fst macros) /\
  lights_state (apply_macro (online 5) "Party" started_connected)
  = lights_state started_connected.
Proof.
  assert (H : ~ In "Party" (map fst macros)).
  { simpl. intros [H|[H|[H|[H|[H|[]]]]]]; discriminate. }
  split; [exact H|].
  rewrite (unknown_macro_only_reports (online 5) "Party" started_connected H).
  reflexivity.
Defined.

(** X5.  For every macro of the table, on a connected controller: after
    [apply_macro] the lights flag, the door flag and [current_temp] are the
    three targets of the macro, whatever the serial devices do; the log ends
    with "Applied macro: <name>" and the last dialog is the confirmation. *)
Theorem registered_macro_reaches_its_targets :
  forall (w : Env) (macro_name : string) (m : macro)
         (s : BuildingAutomationSystem),
    lookup macro_name macros = Some m ->
    is_connected s = true ->
    let s' := apply_macro w macro_name s in
    lights_state s' = lights m /\
    current_temp s' = temperature m /\
    door_relay_state s' = door m /\
    (exists entries,
        log_text s'
        = (log_text s ++ entries
           ++ [log_entry w ("Applied macro: " ++ macro_name)])%list) /\
    messagebox s'
    = (messagebox s
       ++ [showinfo "Macro Applied"
             ("The " ++ macro_name ++ " macro has been applied.")])%list.
Proof.
  intros w name m s H Hc. cbv zeta. unfold apply_macro. rewrite H.
  assert (T : (lights m = "On" \/ lights m = "Off") /\ door m = "Off").
  { unfold macros, lookup in H.
    repeat match type of H with
           | (if ?c then _ else _) = _ =>
             destruct c; [inversion H; subst; cbn; auto|]
           end.
    discriminate. }
  destruct T as [[L|L] D]; rewrite L, D;
    cbn [String.eqb Ascii.eqb Bool.eqb andb]; cbv zeta.
  - normal_form LightsOn w s.
    match goal with
    | |- context [turn_off_door_relay w ?x] => normal_form DoorClose w x
    end.
    cbn. rewrite Hc. cbn. rewrite Hc. cbn. repeat split.
    exists (entries ++ entries0)%list. now rewrite !app_assoc.
  - normal_form LightsOff w s.
    match goal with
    | |- context [turn_off_door_relay w ?x] => normal_form DoorClose w x
    end.
    cbn. rewrite Hc. cbn. rewrite Hc. cbn. repeat split.
    exists (entries ++ entries0)%list. now rewrite !app_assoc.
Qed.

Lemma registered_macro_reaches_its_targets_witness :
  lookup "Morning" macros = Some (mkMacro "On" 22.0 "Off") /\
  is_connected started_connected = true /\
  lights_state
    (apply_macro (world 5 "T" "12:00" unplugged unplugged) "Morning"
       started_connected) = "On".
Proof.
  split; [reflexivity|]. split; [reflexivity|].
  apply (registered_macro_reaches_its_targets
           (world 5 "T" "12:00" unplugged unplugged) "Morning"
           (mkMacro "On" 22.0 "Off") started_connected);
    reflexivity.
Defined.

(** ** Who opens the door *)

Lemma door_not_opened_refl s : door_not_opened s s.
Proof. split; auto. Qed.

Lemma door_not_opened_trans s1 s2 s3 :
  door_not_opened s1 s2 -> door_not_opened s2 s3 -> door_not_opened s1 s3.
Proof.
  intros [T1 D1] [T2 D2]. split; [congruence|].
  destruct D2 as [D2|D2]; [rewrite D2; exact D1 | now right].
Qed.

Lemma appends_door_not_opened s s' : appends s s' -> door_not_opened s s'.
Proof. intros [l ->]. split; auto. Qed.

Lemma actuate_door_not_opened a w s :
  a <> DoorOpen -> door_not_opened s (actuate a w s).
Proof.
  intros Ha. destruct (actuate_shape a w s) as (l & b & ->).
  destruct a; try congruence; destruct (is_connected s); split; cbn; auto.
Qed.

Ltac door_tac :=
  repeat match goal with
         | |- door_not_opened ?s ?s => apply door_not_opened_refl
         | |- door_not_opened ?s (log_event ?w ?m ?x) =>
           apply (door_not_opened_trans s x);
           [| apply appends_door_not_opened, appends_log_event]
         | |- door_not_opened ?s (turn_on_lights ?w ?x) =>
           apply (door_not_opened_trans s x);
           [| apply (actuate_door_not_opened LightsOn); discriminate]
         | |- door_not_opened ?s (turn_off_lights ?w ?x) =>
           apply (door_not_opened_trans s x);
           [| apply (actuate_door_not_opened LightsOff); discriminate]
         | |- door_not_opened ?s (turn_off_door_relay ?w ?x) =>
           apply (door_not_opened_trans s x);
           [| apply (actuate_door_not_opened DoorClose); discriminate]
         | |- door_not_opened ?s (?f ?v ?x) =>
           let H := fresh in
           assert (H : door_not_opened s x);
           [| destruct H; split; simpl; assumption]
         end.

Lemma apply_macro_door_not_opened w name s :
  door_not_opened s (apply_macro w name s).
Proof.
  unfold apply_macro. destruct (lookup name macros) as [m|] eqn:H.
  - assert (D : door m = "Off").
    { unfold macros, lookup in H.
      repeat match type of H with
             | (if ?c then _ else _) = _ =>
               destruct c; [now inversion H|]
             end.
      discriminate. }
    rewrite D. cbn [String.eqb Ascii.eqb Bool.eqb andb]; cbv zeta.
    split_ifs; door_tac.
  - door_tac.
Qed.

(** X6.  The door is opened by the operator only.  Apart from the buttons
    "Open" and "All On", no command and no loop iteration (no mode change,
    no macro of the table, no monitor) turns the door flag to "On" or moves
    [door_open_time]: after such a step the door flag is the old one or
    "Off". *)
Theorem only_open_buttons_open_the_door :
  forall (w : Env) (ev : event) (s : BuildingAutomationSystem),
    ev <> Command ClickDoorOpen -> ev <> Command ClickAllOn ->
    door_open_time (step s (w, ev)) = door_open_time s /\
    (door_relay_state (step s (w, ev)) = door_relay_state s \/
     door_relay_state (step s (w, ev)) = "Off").
Proof.
  intros w ev s H1 H2. change (door_not_opened s (step s (w, ev))).
  unfold step; cbn [fst snd]. destruct ev as [t|c].
  - destruct t; cbn [do_tick];
      unfold monitor_temperature_tick, monitor_schedule_tick,
        auto_mode_monitor_tick, monitor_energy_usage_tick;
      cbv zeta; split_ifs; door_tac.
  - destruct c; try congruence; cbn [do_command];
      try apply apply_macro_door_not_opened;
      unfold change_mode, update_schedule, toggle_scheduled_mode,
        set_temperature_range, all_systems_off;
      cbv zeta; split_ifs; door_tac.
Qed.

Lemma only_open_buttons_open_the_door_witness :
  Command (ClickMacro "Day") <> Command ClickDoorOpen /\
  Command (ClickMacro "Day") <> Command ClickAllOn /\
  door_open_time
    (step started_connected (online 5, Command (ClickMacro "Day")))
  = door_open_time started_connected.
Proof.
  split; [discriminate|]. split; [discriminate|].
  apply (only_open_buttons_open_the_door (online 5)
           (Command (ClickMacro "Day")) started_connected); discriminate.
Defined.

(** ** Schedule times *)

Lemma strftime_HM_length h m : String.length (strftime_HM h m) = 5%nat.
Proof. reflexivity. Qed.

Lemma unpadded_HM_length h m : String.length (unpadded_HM h m) = 4%nat.
Proof. reflexivity. Qed.

Lemma clock_strings_accepted_table :
  forallb (fun h => forallb (fun m => strptime_HM (strftime_HM h m))
                      (seq 0 60)) (seq 0 24) = true.
Proof. vm_compute. reflexivity. Qed.

Lemma unpadded_strings_accepted_table :
  forallb (fun h => forallb (fun m => strptime_HM (unpadded_HM h m))
                      (seq 0 60)) (seq 0 10) = true.
Proof. vm_compute. reflexivity. Qed.

Lemma table_lookup (f : nat -> nat -> bool) (a b h m : nat) :
  forallb (fun h => forallb (fun m => f h m) (seq 0 b)) (seq 0 a) = true ->
  (h < a)%nat -> (m < b)%nat -> f h m = true.
Proof.
  intros T Hh Hm. rewrite forallb_forall in T.
  assert (I : In h (seq 0 a)) by (apply in_seq; lia).
  specialize (T h I). rewrite forallb_forall in T.
  apply T, in_seq. lia.
Qed.

(** X7.  The validation of [update_schedule] accepts every string the clock
    can show (so no time that could fire is refused), and it also accepts
    the hour written with one digit, a string no clock reading ever equals. *)
Theorem validation_accepts_clock_strings_and_unpadded_hours :
  forall h m : nat,
    (h < 24)%nat -> (m < 60)%nat ->
    strptime_HM (strftime_HM h m) = true /\
    ((h < 10)%nat ->
     strptime_HM (unpadded_HM h m) = true /\
     forall h' m' : nat, unpadded_HM h m <> strftime_HM h' m').
Proof.
  intros h m Hh Hm. split.
  - now apply (table_lookup (fun h m => strptime_HM (strftime_HM h m)) 24 60).
  - intros H10. split.
    + now apply (table_lookup (fun h m => strptime_HM (unpadded_HM h m))
                   10 60).
    + intros h' m' E. pose proof (unpadded_HM_length h m) as L.
      rewrite E, strftime_HM_length in L. discriminate.
Qed.

Lemma validation_accepts_clock_strings_and_unpadded_hours_witness :
  (7 < 24)%nat /\ (0 < 60)%nat /\ (7 < 10)%nat /\
  strptime_HM (unpadded_HM 7 0) = true.
Proof.
  split; [lia|]. split; [lia|]. split; [lia|].
  apply (validation_accepts_clock_strings_and_unpadded_hours 7 0); lia.
Defined.

Lemma eqb_false_of_length a b :
  String.length a <> String.length b -> (a =? b) = false.
Proof.
  intros H. apply String.eqb_neq. intros E. apply H. now rewrite E.
Qed.

(** X8.  A schedule entered with one-digit hours ("7:00", "9:30") is
    confirmed by [update_schedule] with the entry "Schedule updated" and the
    success dialog, and it never fires: at no clock reading does an iteration
    of [monitor_schedule] change the state, in whatever mode. *)
Theorem unpadded_schedule_is_confirmed_and_never_fires :
  forall (w w' : Env) (s : BuildingAutomationSystem)
         (h_on m_on h_off m_off h m : nat),
    (h_on < 10)%nat -> (m_on < 60)%nat ->
    (h_off < 10)%nat -> (m_off < 60)%nat ->
    lights_on_time s = unpadded_HM h_on m_on ->
    lights_off_time s = unpadded_HM h_off m_off ->
    clock_hm w' = strftime_HM h m ->
    let text := "Schedule updated: Lights ON at " ++ lights_on_time s
                ++ ", OFF at " ++ lights_off_time s in
    update_schedule w s
    = show (showinfo "Success" text) (log_event w text s) /\
    monitor_schedule_tick w' (update_schedule w s) = update_schedule w s.
Proof.
  intros w w' s h_on m_on h_off m_off h m H1 H2 H3 H4 Eon Eoff Ec. cbv zeta.
  assert (U : update_schedule w s
              = show (showinfo "Success"
                        ("Schedule updated: Lights ON at " ++ lights_on_time s
                         ++ ", OFF at " ++ lights_off_time s))
                  (log_event w
                     ("Schedule updated: Lights ON at " ++ lights_on_time s
                      ++ ", OFF at " ++ lights_off_time s) s)).
  { unfold update_schedule; cbv zeta. rewrite Eon, Eoff.
    rewrite (table_lookup (fun h m => strptime_HM (unpadded_HM h m)) 10 60
               h_on m_on unpadded_strings_accepted_table H1 H2).
    rewrite (table_lookup (fun h m => strptime_HM (unpadded_HM h m)) 10 60
               h_off m_off unpadded_strings_accepted_table H3 H4).
    reflexivity. }
  split; [exact U|]. rewrite U.
  unfold monitor_schedule_tick; cbv zeta.
  cbn [scheduled_mode lights_on_time lights_off_time show log_event
       set_messagebox set_log_text].
  rewrite Ec, Eon, Eoff.
  assert (N : forall a b, (strftime_HM h m =? unpadded_HM a b) = false).
  { intros a b. apply eqb_false_of_length.
    rewrite strftime_HM_length, unpadded_HM_length. discriminate. }
  rewrite N.
  cbn [lights_off_time show log_event set_messagebox set_log_text].
  rewrite ?Eoff, N. now destruct (scheduled_mode s).
Qed.

Lemma unpadded_schedule_is_confirmed_and_never_fires_witness :
  monitor_schedule_tick (world 25200 "2025-03-27 07:00:00" "07:00"
                           responsive responsive)
    (update_schedule (online 5)
       (change_mode (online 4) "Schedule"
          (set_lights_off_time "9:30"
             (set_lights_on_time "7:00" started_connected))))
  = update_schedule (online 5)
      (change_mode (online 4) "Schedule"
         (set_lights_off_time "9:30"
            (set_lights_on_time "7:00" started_connected))).
Proof.
  apply (unpadded_schedule_is_confirmed_and_never_fires (online 5)
           (world 25200 "2025-03-27 07:00:00" "07:00" responsive responsive)
           (change_mode (online 4) "Schedule"
              (set_lights_off_time "9:30"
                 (set_lights_on_time "7:00" started_connected)))
           7 0 9 30 7 0); solve [lia | reflexivity].
Defined.

(** X9.  What an iteration of [monitor_schedule] does to the lights of a
    connected controller in a scheduled mode: "Off" if the clock string
    equals [lights_off_time], else "On" if it equals [lights_on_time], else
    no change.  With both times equal the lights end up off.  Outside the
    scheduled modes the iteration changes nothing at all. *)
Theorem schedule_tick_lights :
  forall (w : Env) (s : BuildingAutomationSystem),
    (scheduled_mode s = false -> monitor_schedule_tick w s = s) /\
    (scheduled_mode s = true -> is_connected s = true ->
     lights_state (monitor_schedule_tick w s)
     = if clock_hm w =? lights_off_time s then "Off"
       else if clock_hm w =? lights_on_time s then "On"
       else lights_state s).
Proof.
  intros w s. unfold monitor_schedule_tick; cbv zeta. split.
  - intros H. now rewrite H.
  - intros H Hc. rewrite H.
    destruct (clock_hm w =? lights_on_time s).
    + normal_form LightsOn w s. rewrite Hc.
      cbn [lights_off_time log_event set_log_text set_lights_state effect
           log_text].
      destruct (clock_hm w =? lights_off_time s); [|reflexivity].
      match goal with
      | |- context [turn_off_lights w ?x] => normal_form LightsOff w x
      end.
      cbn. now rewrite Hc.
    + destruct (clock_hm w =? lights_off_time s); [|reflexivity].
      normal_form LightsOff w s. cbn. now rewrite Hc.
Qed.

Lemma schedule_tick_lights_witness :
  scheduled_mode
    (set_lights_on_time "12:00"
       (set_lights_off_time "12:00"
          (change_mode (online 4) "Schedule" started_connected))) = true /\
  lights_state
    (monitor_schedule_tick (online 5)
       (set_lights_on_time "12:00"
          (set_lights_off_time "12:00"
             (change_mode (online 4) "Schedule" started_connected))))
  = "Off".
Proof.
  split; [reflexivity|].
  apply (proj2 (schedule_tick_lights (online 5)
                  (set_lights_on_time "12:00"
                     (set_lights_off_time "12:00"
                        (change_mode (online 4) "Schedule"
                           started_connected))))); reflexivity.
Defined.

(** ** Rounding *)

Lemma py_round_1 x : py_round x 1 = Qmake (round_half_even (x * 10)) 10.
Proof. reflexivity. Qed.

Lemma inject_Z_succ f : inject_Z (f + 1) == inject_Z f + 1.
Proof. now rewrite inject_Z_plus. Qed.

Lemma round_half_even_between z (a b : Z) :
  inject_Z a <= z -> z <= inject_Z b ->
  (a <= round_half_even z <= b)%Z.
Proof.
  intros La Ub.
  pose proof (Qfloor_le z) as L.
  pose proof (Qlt_floor z) as U.
  assert (Fa : (a <= Qfloor z)%Z).
  { rewrite <- (Qfloor_Z a). now apply Qfloor_resp_le. }
  assert (Fb : (Qfloor z <= b)%Z).
  { rewrite <- (Qfloor_Z b). now apply Qfloor_resp_le. }
  unfold round_half_even. cbv zeta.
  destruct (Qcompare (z - inject_Z (Qfloor z)) (1 # 2)) eqn:C.
  - apply Qeq_alt in C. destruct (Z.even (Qfloor z)); [lia|].
    assert (S : inject_Z (Qfloor z) < inject_Z b) by lra.
    rewrite <- Zlt_Qlt in S. lia.
  - lia.
  - apply Qgt_alt in C.
    assert (S : inject_Z (Qfloor z) < inject_Z b) by lra.
    rewrite <- Zlt_Qlt in S. lia.
Qed.

(** ** Sensor readings *)

Lemma humidity_kept_refl s : humidity_kept s s.
Proof. reflexivity. Qed.

Lemma humidity_kept_trans s1 s2 s3 :
  humidity_kept s1 s2 -> humidity_kept s2 s3 -> humidity_kept s1 s3.
Proof. unfold humidity_kept; congruence. Qed.

Lemma appends_humidity_kept s s' : appends s s' -> humidity_kept s s'.
Proof. now intros [l ->]. Qed.

Lemma actuate_humidity_kept a w s : humidity_kept s (actuate a w s).
Proof.
  destruct (actuate_shape a w s) as (l & b & ->).
  now destruct a, b, (is_connected s).
Qed.

Ltac close_humidity H := unfold humidity_kept in *; simpl; exact H.

Ltac humidity_tac :=
  frame_with humidity_kept humidity_kept_refl humidity_kept_trans
    appends_humidity_kept (fun w a s => actuate_humidity_kept a w s)
    close_humidity.

Lemma do_command_humidity_kept w c s : humidity_kept s (do_command w c s).
Proof.
  destruct c; cbn [do_command];
    unfold change_mode, apply_macro, update_schedule, toggle_scheduled_mode,
      set_temperature_range, all_systems_on, all_systems_off;
    cbv zeta; split_ifs; humidity_tac.
Qed.

Lemma clamp_in_band x : 30 <= py_max 30 (py_min 70 x) <= 70.
Proof.
  unfold py_max, py_min.
  destruct (Qlt_bool x 70) eqn:A.
  - apply Qlt_bool_iff in A.
    destruct (Qlt_bool 30 x) eqn:B.
    + apply Qlt_bool_iff in B. split; lra.
    + split; lra.
  - assert (B : Qlt_bool 30 70 = true) by reflexivity.
    rewrite B. split; lra.
Qed.

Lemma rounded_clamp_in_band x :
  30 <= py_round (py_max 30 (py_min 70 x)) 1 <= 70.
Proof.
  rewrite py_round_1. destruct (clamp_in_band x) as [L U].
  set (y := py_max 30 (py_min 70 x)) in *.
  destruct (round_half_even_between (y * 10) 300 700) as [A B].
  - change (inject_Z 300) with (300 # 1). lra.
  - change (inject_Z 700) with (700 # 1). lra.
  - unfold Qle; simpl. lia.
Qed.

Lemma temperature_tick_humidity w fl hc s :
  current_humidity (monitor_temperature_tick w fl hc s)
  = py_round (py_max 30 (py_min 70 (current_humidity s + hc))) 1.
Proof.
  unfold monitor_temperature_tick; cbv zeta.
  split_ifs;
    repeat match goal with
           | |- context [turn_on_lights w ?x] => normal_form LightsOn w x
           | |- context [turn_off_lights w ?x] => normal_form LightsOff w x
           end;
    cbn; try reflexivity;
    match goal with
    | |- context [if ?c then _ else _] => now destruct c
    end.
Qed.

Lemma do_tick_humidity_in_band w t s :
  humidity_in_band s -> humidity_in_band (do_tick w t s).
Proof.
  intros H. unfold humidity_in_band.
  destruct t as [fl hc| | |]; cbn [do_tick].
  - rewrite temperature_tick_humidity. apply rounded_clamp_in_band.
  - assert (K : humidity_kept s (monitor_schedule_tick w s))
      by (unfold monitor_schedule_tick; cbv zeta; split_ifs; humidity_tac).
    now rewrite K.
  - assert (K : humidity_kept s (auto_mode_monitor_tick w s))
      by (unfold auto_mode_monitor_tick; cbv zeta; split_ifs; humidity_tac).
    now rewrite K.
  - exact H.
Qed.

(** X10.  In every run the humidity reading stays within the clamp: the
    initial 45.0 and every value stored by [monitor_temperature], after
    clamping and rounding to one decimal, lie between 30 and 70; nothing
    else writes the reading. *)
Theorem humidity_stays_in_band :
  forall (w0 : Env) (early : list (Env * tick)) (w1 : Env)
         (trace : list (Env * event)),
    30 <= current_humidity (reached w0 early w1 trace) /\
    current_humidity (reached w0 early w1 trace) <= 70.
Proof.
  intros w0 early w1 trace. unfold reached, run.
  change (humidity_in_band (fold_left step trace (startup w0 early w1))).
  assert (B : humidity_in_band (startup w0 early w1)).
  { unfold startup, try_connect_devices.
    set (base := snd (start_all_monitoring w0 (setup_gui w0 (init w0)))).
    assert (G : humidity_in_band base) by (split; discriminate).
    clearbody base. revert base G.
    induction early as [|[w t] rest IH]; intros base G; simpl.
    - exact G.
    - apply IH. now apply do_tick_humidity_in_band. }
  revert B. generalize (startup w0 early w1).
  induction trace as [|[w e] rest IH]; intros s B; simpl; [exact B|].
  apply IH. unfold step; cbn [fst snd]. destruct e as [t|c].
  - now apply do_tick_humidity_in_band.
  - unfold humidity_in_band. now rewrite (do_command_humidity_kept w c s).
Qed.

(** ** Energy counter at short sampling intervals *)

Lemma floor_unique z k :
  inject_Z k <= z -> z < inject_Z k + 1 -> Qfloor z = k.
Proof.
  intros L U.
  pose proof (Qfloor_le z) as L'.
  pose proof (Qlt_floor z) as U'. rewrite inject_Z_succ in U'.
  assert (A : inject_Z (Qfloor z) < inject_Z (k + 1))
    by (rewrite inject_Z_succ; lra).
  assert (B : inject_Z k < inject_Z (Qfloor z + 1))
    by (rewrite inject_Z_succ; lra).
  rewrite <- Zlt_Qlt in A, B. lia.
Qed.

Lemma py_round_2_stays x d k :
  x == Qmake k 100 -> 0 <= d -> d < 1 # 200 -> py_round (x + d) 2 == x.
Proof.
  intros Hx D0 D1. rewrite py_round_2.
  assert (E : x * 100 == inject_Z k).
  { rewrite Hx. unfold Qeq, Qmult, inject_Z; simpl. lia. }
  assert (F : Qfloor ((x + d) * 100) = k) by (apply floor_unique; lra).
  unfold round_half_even; cbv zeta. rewrite F.
  assert (C : Qcompare ((x + d) * 100 - inject_Z k) (1 # 2) = Lt)
    by (apply -> Qlt_alt; lra).
  rewrite C. now rewrite Hx.
Qed.

Lemma energy_increment_small w s :
  time_time w < last_energy_update s + 120 ->
  last_energy_update s <= time_time w ->
  energy_increment w s < 1 # 200.
Proof.
  intros U L. unfold energy_increment; cbv zeta. unfold Qdiv.
  change (/ 3600) with (1 # 3600).
  destruct (lights_state s =? "On"), (door_relay_state s =? "On"); lra.
Qed.

(** X12.  At the pace of the loop (one sample every 60 seconds) the energy
    counter does not move.  In every state of a run, if the clock is at or
    after the last sample and at most 100 seconds past it, the iteration
    stores the old counter value: the increment stays well below the half
    hundredth that rounding to two decimals needs.  The
    iteration still moves [last_energy_update] to the clock reading, so the
    elapsed time is not carried over to the next sample.  (The bound on the
    counter is not used by the exact arithmetic of this model; it keeps the
    statement within the range where doubles resolve hundredths.) *)
Theorem short_samples_leave_energy_counter_unchanged :
  forall (w0 : Env) (early : list (Env * tick)) (w1 : Env)
         (trace : list (Env * event)) (w : Env),
    let s := reached w0 early w1 trace in
    energy_usage s <= 1000000 ->
    last_energy_update s <= time_time w ->
    time_time w <= last_energy_update s + 100 ->
    energy_usage (monitor_energy_usage_tick w s) == energy_usage s /\
    last_energy_update (monitor_energy_usage_tick w s) = time_time w.
Proof.
  intros w0 early w1 trace w s _ L U. split; [|reflexivity].
  destruct (reached_on_grid w0 early w1 trace) as [k G]. fold s in G.
  unfold monitor_energy_usage_tick.
  cbn [energy_usage set_last_energy_update set_energy_usage].
  apply (py_round_2_stays _ _ k G).
  - now apply energy_increment_nonneg.
  - apply energy_increment_small; [lra | exact L].
Qed.

Lemma short_samples_leave_energy_counter_unchanged_witness :
  energy_usage
    (reached (online 0) [] (online 0) [(online 0, Command ClickAllOn)])
  <= 1000000 /\
  last_energy_update
    (reached (online 0) [] (online 0)
       [(online 0, Command ClickAllOn)]) <= time_time (online 60) /\
  time_time (online 60)
  <= last_energy_update
       (reached (online 0) [] (online 0)
          [(online 0, Command ClickAllOn)]) + 100 /\
  energy_usage
    (monitor_energy_usage_tick (online 60)
       (reached (online 0) [] (online 0) [(online 0, Command ClickAllOn)]))
  == energy_usage
       (reached (online 0) [] (online 0) [(online 0, Command ClickAllOn)]).
Proof.
  split; [discriminate|]. split; [discriminate|]. split; [discriminate|].
  apply (short_samples_leave_energy_counter_unchanged (online 0) []
           (online 0) [(online 0, Command ClickAllOn)] (online 60));
    discriminate.
Defined.

(** ** All systems on, all systems off *)

(** X13.  [all_systems_on] and [all_systems_off] always end with their
    success dialog, also when nothing was actuated.  On a connected
    controller both flags are "On" (respectively "Off") afterwards, whatever
    the devices answer; without a connection both flags keep their values. *)
Theorem all_systems_always_report_success :
  forall (w : Env) (s : BuildingAutomationSystem),
    messagebox (all_systems_on w s)
    = (messagebox s ++ [showinfo "Success" "All systems activated"])%list /\
    messagebox (all_systems_off w s)
    = (messagebox s ++ [showinfo "Success" "All systems deactivated"])%list /\
    (is_connected s = true ->
     lights_state (all_systems_on w s) = "On" /\
     door_relay_state (all_systems_on w s) = "On" /\
     lights_state (all_systems_off w s) = "Off" /\
     door_relay_state (all_systems_off w s) = "Off") /\
    (is_connected s = false ->
     lights_state (all_systems_on w s) = lights_state s /\
     door_relay_state (all_systems_on w s) = door_relay_state s /\
     lights_state (all_systems_off w s) = lights_state s /\
     door_relay_state (all_systems_off w s) = door_relay_state s).
Proof.
  intros w s. unfold all_systems_on, all_systems_off.
  repeat match goal with
         | |- context [turn_on_lights w ?x] => normal_form LightsOn w x
         | |- context [turn_off_lights w ?x] => normal_form LightsOff w x
         end.
  repeat match goal with
         | |- context [turn_on_door_relay w ?x] => normal_form DoorOpen w x
         | |- context [turn_off_door_relay w ?x] => normal_form DoorClose w x
         end.
  cbn.
  destruct (is_connected s) eqn:Hc; cbn; rewrite ?Hc; cbn;
    destruct stamped1, stamped2; cbn;
    repeat split; intros; try reflexivity; discriminate.
Qed.

Lemma all_systems_always_report_success_witness :
  is_connected started_unconnected = false /\
  lights_state (all_systems_on (online 5) started_unconnected)
  = lights_state started_unconnected.
Proof.
  split; [reflexivity|].
  apply (all_systems_always_report_success (online 5) started_unconnected).
  reflexivity.
Defined.

(** ** Lighting frames *)

Lemma send_light_commands_answered w ser commands :
  forall s,
    answered ser commands = true ->
    send_light_commands w ser commands s
    = (set_log_text
         (log_text s ++ map (response_entry w ser) commands)%list s,
       Normal).
Proof.
  induction commands as [|c rest IH]; intros s A; simpl.
  - rewrite app_nil_r. now destruct s.
  - simpl in A. apply andb_true_iff in A. destruct A as [A1 A2].
    unfold response_entry at 1.
    destruct (write_error ser c); [discriminate|].
    destruct (readline ser c) as [r|e]; [|discriminate].
    rewrite (IH _ A2). unfold log_event, set_log_text; simpl.
    now rewrite <- app_assoc.
Qed.

(** X14.  On a connected controller whose lighting device opens and answers
    every frame, [turn_on_lights] sends the four frames for channels 4, 2, 3
    and 6 in this order: the log gains one response entry per frame, in that
    order, then "Lights turned ON", and the flag is "On"; nothing else
    changes.  [turn_off_lights] does the same with level 0, "Lights turned
    OFF" and "Off". *)
Theorem answered_lighting_commands_log_every_reply :
  forall (w : Env) (s : BuildingAutomationSystem),
    is_connected s = true ->
    open_error (controller_serial_port w) = None ->
    (answered (controller_serial_port w) commands_to_turn_on_lights = true ->
     turn_on_lights w s
     = set_log_text
         (log_text s
          ++ map (response_entry w (controller_serial_port w))
               commands_to_turn_on_lights
          ++ [log_entry w "Lights turned ON"])%list
         (set_lights_state "On" s)) /\
    (answered (controller_serial_port w) commands_to_turn_off_lights = true ->
     turn_off_lights w s
     = set_log_text
         (log_text s
          ++ map (response_entry w (controller_serial_port w))
               commands_to_turn_off_lights
          ++ [log_entry w "Lights turned OFF"])%list
         (set_lights_state "Off" s)).
Proof.
  intros w s Hc Ho. split; intros A.
  - unfold turn_on_lights, turn_on_lights_try, lights_try.
    rewrite Hc, Ho; cbn [negb].
    rewrite (send_light_commands_answered _ _ _ _ A).
    unfold log_event, set_log_text, set_lights_state; cbn.
    now rewrite <- app_assoc.
  - unfold turn_off_lights, turn_off_lights_try, lights_try.
    rewrite Hc, Ho; cbn [negb].
    rewrite (send_light_commands_answered _ _ _ _ A).
    unfold log_event, set_log_text, set_lights_state; cbn.
    now rewrite <- app_assoc.
Qed.

Lemma answered_lighting_commands_log_every_reply_witness :
  is_connected started_connected = true /\
  answered (controller_serial_port (online 5)) commands_to_turn_on_lights
  = true /\
  List.length (log_text (turn_on_lights (online 5) started_connected))
  = (List.length (log_text started_connected) + 5)%nat.
Proof.
  split; [reflexivity|]. split; [reflexivity|].
  rewrite (proj1 (answered_lighting_commands_log_every_reply (online 5)
                    started_connected eq_refl eq_refl) eq_refl).
  reflexivity.
Defined.

(** ** What an actuation leaves alone *)

(** X15.  An actuation touches its own device only.  None of the four
    operations changes a reading, the temperature band, the schedule, the
    mode or its flags, the energy counter, the connection flag or the
    dialogs; the two lighting operations leave the door flag and
    [door_open_time] alone, and the two door operations leave the lights
    flag alone. *)
Theorem actuation_touches_only_its_device :
  forall (a : actuation) (w : Env) (s : BuildingAutomationSystem),
    let s' := actuate a w s in
    current_temp s' = current_temp s /\
    current_humidity s' = current_humidity s /\
    temp_min s' = temp_min s /\ temp_max s' = temp_max s /\
    lights_on_time s' = lights_on_time s /\
    lights_off_time s' = lights_off_time s /\
    current_mode s' = current_mode s /\
    auto_mode s' = auto_mode s /\ scheduled_mode s' = scheduled_mode s /\
    energy_usage s' = energy_usage s /\
    last_energy_update s' = last_energy_update s /\
    is_connected s' = is_connected s /\
    messagebox s' = messagebox s /\
    match a with
    | LightsOn | LightsOff =>
      door_relay_state s' = door_relay_state s /\
      door_open_time s' = door_open_time s
    | DoorOpen | DoorClose => lights_state s' = lights_state s
    end.
Proof.
  intros a w s. cbv zeta.
  destruct (actuate_shape a w s) as (l & b & ->).
  destruct a, b, (is_connected s) eqn:Hc; cbn; rewrite ?Hc; repeat split.
Qed.

(** ** Door time-out boundary *)

(** X16.  The time-out is strict: while the clock is at most 10 seconds past
    [door_open_time], an iteration of [auto_mode_monitor] does not call the
    door-close operation; the door flag and the time stamp stay as they
    are, in every mode. *)
Theorem door_stays_open_until_timeout_has_passed :
  forall (w : Env) (s : BuildingAutomationSystem),
    time_time w - door_open_time s <= 10 ->
    door_relay_state (auto_mode_monitor_tick w s) = door_relay_state s /\
    door_open_time (auto_mode_monitor_tick w s) = door_open_time s.
Proof.
  intros w s H. unfold auto_mode_monitor_tick.
  destruct (auto_mode s); [|now split]. cbv zeta.
  match goal with
  | |- context [door_relay_state ?x =? "On"] => set (s1 := x)
  end.
  assert (K : door_relay_state s1 = door_relay_state s /\
              door_open_time s1 = door_open_time s).
  { subst s1.
    destruct (Qlt_bool (current_temp s) (temp_min s));
      [destruct (lights_state s =? "Off")
      |destruct (Qlt_bool (temp_max s) (current_temp s));
        [destruct (lights_state s =? "On")|]];
      try (split; reflexivity).
    - destruct (lights_actuation_keeps_door LightsOn w s) as (A & B & _);
        [now left | now split].
    - destruct (lights_actuation_keeps_door LightsOff w s) as (A & B & _);
        [now right | now split]. }
  destruct K as [K1 K2].
  assert (T : Qlt_bool 10 (time_time w - door_open_time s1) = false)
    by (rewrite K2; now apply Qlt_bool_false_iff).
  rewrite T. now destruct (door_relay_state s1 =? "On").
Qed.

Lemma door_stays_open_until_timeout_has_passed_witness :
  time_time (online 110)
  - door_open_time
      (turn_on_door_relay (online 100)
         (change_mode (online 50) "Auto" started_connected)) <= 10 /\
  door_relay_state
    (auto_mode_monitor_tick (online 110)
       (turn_on_door_relay (online 100)
          (change_mode (online 50) "Auto" started_connected))) = "On".
Proof.
  split; [discriminate|].
  rewrite (proj1 (door_stays_open_until_timeout_has_passed (online 110)
                    (turn_on_door_relay (online 100)
                       (change_mode (online 50) "Auto" started_connected))
                    ltac:(discriminate))).
  reflexivity.
Defined.

(** ** Climate tick outside the auto-regulating modes *)

(** X17.  With [auto_mode] off (after "Manual" or "Schedule" was chosen) an
    iteration of [monitor_temperature] only replaces the two readings: no
    actuation is called and nothing is logged, however far the temperature
    is from the band. *)
Theorem climate_tick_without_auto_mode_only_senses :
  forall (w : Env) (fluctuation humidity_change : Q)
         (s : BuildingAutomationSystem),
    auto_mode s = false ->
    monitor_temperature_tick w fluctuation humidity_change s
    = perturbed fluctuation humidity_change s /\
    lights_state (monitor_temperature_tick w fluctuation humidity_change s)
    = lights_state s /\
    log_text (monitor_temperature_tick w fluctuation humidity_change s)
    = log_text s.
Proof.
  intros w fl hc s Ha.
  assert (E : monitor_temperature_tick w fl hc s = perturbed fl hc s).
  { unfold monitor_temperature_tick; cbv zeta.
    cbn [auto_mode set_current_humidity set_current_temp].
    now rewrite Ha, !andb_false_r. }
  rewrite E. repeat split.
Qed.

Lemma climate_tick_without_auto_mode_only_senses_witness :
  auto_mode started_connected = false /\
  lights_state (monitor_temperature_tick (online 10) (-5) 0 started_connected)
  = lights_state started_connected.
Proof.
  split; [reflexivity|].
  apply (climate_tick_without_auto_mode_only_senses (online 10) (-5) 0
           started_connected).
  reflexivity.
Defined.

(** ** Refused schedule times *)

Lemma split_colon_none t : contains_colon t = false -> split_colon t = None.
Proof.
  induction t as [|c rest IH]; simpl; trivial.
  destruct (c =? ":")%char; [discriminate|].
  intros H. now rewrite (IH H).
Qed.

Lemma two_digit_times_table :
  forallb (fun h =>
             forallb (fun m =>
                        Bool.eqb (strptime_HM (strftime_HM h m))
                          ((h <? 24)%nat && (m <? 60)%nat))
               (seq 0 100)) (seq 0 100) = true.
Proof. vm_compute. reflexivity. Qed.

(** X18.  What the validation of [update_schedule] refuses, and what a
    refusal does.  A time of two digits, a colon and two digits is accepted
    exactly when the hour is below 24 and the minute below 60; a string
    without a colon is always refused.  If either time is refused, the only
    effect is the error dialog: nothing is logged and the two strings stay in
    [lights_on_time] and [lights_off_time] as they were typed. *)
Theorem refused_schedule_only_reports :
  (forall h m : nat,
      (h < 100)%nat -> (m < 100)%nat ->
      strptime_HM (strftime_HM h m) = ((h <? 24)%nat && (m <? 60)%nat)) /\
  (forall t : string, contains_colon t = false -> strptime_HM t = false) /\
  (forall (w : Env) (s : BuildingAutomationSystem),
      strptime_HM (lights_on_time s) = false \/
      strptime_HM (lights_off_time s) = false ->
      update_schedule w s
      = set_messagebox (messagebox s ++ [schedule_error]) s).
Proof.
  split; [|split].
  - intros h m Hh Hm.
    apply Bool.eqb_prop.
    now apply (table_lookup
                 (fun h m => Bool.eqb (strptime_HM (strftime_HM h m))
                               ((h <? 24)%nat && (m <? 60)%nat))
                 100 100 h m two_digit_times_table).
  - intros t H. unfold strptime_HM. now rewrite (split_colon_none t H).
  - intros w s H. unfold update_schedule; cbv zeta.
    destruct H as [H|H]; rewrite H; rewrite ?andb_false_r; reflexivity.
Qed.

Lemma refused_schedule_only_reports_witness :
  strptime_HM (lights_on_time (set_lights_on_time "24:00" started_connected))
  = false /\
  log_text
    (update_schedule (online 5)
       (set_lights_on_time "24:00" started_connected))
  = log_text started_connected /\
  lights_on_time
    (update_schedule (online 5)
       (set_lights_on_time "24:00" started_connected)) = "24:00".
Proof.
  split; [reflexivity|].
  rewrite (proj2 (proj2 refused_schedule_only_reports) (online 5)
             (set_lights_on_time "24:00" started_connected)
             (or_introl eq_refl)).
  split; reflexivity.
Defined.
